(** * epic: count matrixes and bedgraph tracks (epic/matrixes/matrixes.py)

    A shallow embedding of the matrix pipeline of epic and the properties of
    its specification.

    - A data frame is its list of column labels and its list of rows; a row
      is a (Chromosome, Bin) key and a finite map from column label to
      count.  A label without an entry in the map of a row is a missing
      value (NaN) of that row.
    - Counts are integers ([Z]).  The false discovery rate is a binary64
      float and is compared as Python compares it.
    - A Python exception is the [Raise] result of a small error monad.
    - The files that are written are kept in a finite map from path to
      lines, passed from call to call.  Directories ([mkdir -p]), logging
      and the gzip layer of the matrix file are left out.
    - The input tables have their Chromosome and Bin columns by type, so the
      casts of these two columns and [set_index] on them are the identity.

    [get_island_bins] and [put_dfs_in_dict] are not called by the pipeline
    and are left out. *)

From Stdlib Require Import ZArith List String Ascii Bool Lia PrimFloat FinFun Sorted.
From stdpp Require Import base option gmap strings list fin_maps.
Import ListNotations.

Set Warnings "-inexact-float".

Local Open Scope string_scope.
Local Open Scope Z_scope.

(** ** Exceptions *)

Inductive exn : Set := KeyError | ValueError | TypeError.

Inductive result (A : Type) : Type :=
| Ok (a : A)
| Raise (e : exn).
Arguments Ok {A} a.
Arguments Raise {A} e.

#[global] Instance result_ret : MRet result := fun A a => Ok a.
#[global] Instance result_bind : MBind result := fun A B f m =>
  match m with
  | Ok a => f a
  | Raise e => Raise e
  end.

#[global] Instance result_fmap : FMap result := fun A B f m =>
  match m with
  | Ok a => Ok (f a)
  | Raise e => Raise e
  end.

(** ** Data model *)

(** The composite index (Chromosome, Bin). *)
Definition key : Type := string * Z.

Definition key_eqb (k1 k2 : key) : bool :=
  String.eqb (fst k1) (fst k2) && Z.eqb (snd k1) (snd k2).

(** A row of cells by column label; no entry for a label is NaN. *)
Abbreviation cells := (gmap string Z).

Record DataFrame : Type := mkDataFrame {
  columns : list string;
  rows : list (key * cells)
}.

(** A column taken out of a frame: one value per key, [None] for NaN. *)
Definition Series : Type := list (key * option Z).

Definition index (df : DataFrame) : list key := map fst (rows df).

(** A row of the differential-analysis table. *)
Record Region : Type := mkRegion {
  Chromosome : string;
  Start : Z;
  End : Z;
  FDR : float
}.

(** The options of the command line that the module reads. *)
Module Args.
Record t : Type := mk {
  window_size : Z;
  false_discovery_rate_cutoff : float;
  number_cores : Z;
  treatment : list string;
  control : list string;
  store_matrix : option string;
  bedgraph : option string;
  individual_bedgraph : option string
}.
End Args.

(** Truth value of an optional path: [None] and the empty string are false. *)
Definition truthy (o : option string) : bool :=
  match o with
  | Some s => negb (String.eqb s "")
  | None => false
  end.

(** ** Python builtins *)

(** Number of elements of [range(start, stop, step)], [step] not 0. *)
Definition range_len (start stop step : Z) : Z :=
  if 0 <? step
  then (if start <? stop then (stop - start - 1) / step + 1 else 0)
  else (if stop <? start then (start - stop - 1) / (- step) + 1 else 0).

Definition range_list (start stop step : Z) : list Z :=
  map (fun i : nat => start + Z.of_nat i * step)
      (seq 0 (Z.to_nat (range_len start stop step))).

(** [range(start, stop, step)]; a zero step raises ValueError. *)
Definition range (start stop step : Z) : result (list Z) :=
  if step =? 0 then Raise ValueError
  else Ok (range_list start stop step).

(** Python values held in the row dicts of [enriched_bins]. *)
Inductive pyval : Set := VStr (s : string) | VInt (z : Z).

(** A dict literal, as its items in order. *)
Definition rowdict : Type := list (string * pyval).

Fixpoint dict_get (k : string) (d : rowdict) : option pyval :=
  match d with
  | [] => None
  | (k', v) :: d' => if String.eqb k k' then Some v else dict_get k d'
  end.

Definition mem (s : string) (l : list string) : bool :=
  existsb (String.eqb s) l.

(** Labels in order of first appearance. *)
Fixpoint unique (l : list string) : list string :=
  match l with
  | [] => []
  | x :: l' => x :: List.filter (fun y => negb (String.eqb x y)) (unique l')
  end.

(** ** The pandas operations the module calls *)

(** A frame before [set_index]: every field of a row is a plain column. *)
Record RawFrame : Type := mkRawFrame {
  raw_columns : list string;
  raw_rows : list rowdict
}.

(** [pd.DataFrame.from_dict(rowdicts)]: the columns are the keys of the
    dicts; an empty list gives a frame with no column at all. *)
Definition from_dict (rowdicts : list rowdict) : RawFrame :=
  {| raw_columns := unique (flat_map (map fst) rowdicts);
     raw_rows := rowdicts |}.

(** [frame.loc[:, label]]: KeyError when there is no such column. *)
Definition loc_column (frame : RawFrame) (label : string) : result (list (option pyval)) :=
  if mem label (raw_columns frame)
  then Ok (map (dict_get label) (raw_rows frame))
  else Raise KeyError.

Fixpoint to_cells (labels : list string) (d : rowdict) : result cells :=
  match labels with
  | [] => Ok ∅
  | c :: labels' =>
      m ← to_cells labels' d;
      match dict_get c d with
      | None => Ok m
      | Some (VInt z) => Ok (<[c := z]> m)
      | Some (VStr _) => Raise TypeError
      end
  end.

Definition index_row (labels : list string) (d : rowdict) : result (key * cells) :=
  match dict_get "Chromosome" d, dict_get "Bin" d with
  | Some (VStr c), Some (VInt b) => m ← to_cells labels d; Ok ((c, b), m)
  | _, _ => Raise TypeError
  end.

Fixpoint mapM {A B} (f : A -> result B) (l : list A) : result (list B) :=
  match l with
  | [] => Ok []
  | x :: l' => y ← f x; ys ← mapM f l'; Ok (y :: ys)
  end.

(** [frame.set_index(["Chromosome", "Bin"])]: KeyError when one of the two
    columns is missing; the other columns stay. *)
Definition set_index (frame : RawFrame) : result DataFrame :=
  if mem "Chromosome" (raw_columns frame) && mem "Bin" (raw_columns frame)
  then
    let rest := List.filter
                  (fun c => negb (String.eqb c "Chromosome" || String.eqb c "Bin"))
                  (raw_columns frame) in
    rs ← mapM (index_row rest) (raw_rows frame);
    Ok {| columns := rest; rows := rs |}
  else Raise KeyError.

(** ** Enriched-bin index: [enriched_bins] *)

Definition island_rowdict (chromosome : string) (bin : Z) : rowdict :=
  [("Chromosome", VStr chromosome); ("Bin", VInt bin); ("Island", VInt 1)].

(** The inner loop, for one row of the filtered table. *)
Definition row_rowdicts (window_size : Z) (row : Region) : result (list rowdict) :=
  bins ← range (Start row) (End row + 2) window_size;
  Ok (map (island_rowdict (Chromosome row)) bins).

(** The outer loop: [idx_rowdicts] after all rows were visited. *)
Fixpoint idx_rowdicts (window_size : Z) (df : list Region) : result (list rowdict) :=
  match df with
  | [] => Ok []
  | row :: df' =>
      ds ← row_rowdicts window_size row;
      more ← idx_rowdicts window_size df';
      Ok (ds ++ more)%list
  end.

Definition below_cutoff (args : Args.t) (row : Region) : bool :=
  PrimFloat.ltb (FDR row) (Args.false_discovery_rate_cutoff args).

Definition enriched_bins (df : list Region) (args : Args.t) : result DataFrame :=
  let df := List.filter (below_cutoff args) df in
  ds ← idx_rowdicts (Args.window_size args) df;
  let islands := from_dict ds in
  _ ← loc_column islands "Chromosome";
  _ ← loc_column islands "Bin";
  set_index islands.

(** ** Joins and filling *)

Definition overlap (l1 l2 : list string) : bool :=
  existsb (fun c => mem c l2) l1.

(** The cells of the rows of [df] indexed by [k], in order. *)
Definition lookup_rows (k : key) (df : DataFrame) : list cells :=
  map snd (List.filter (fun kr => key_eqb k (fst kr)) (rows df)).

Definition has_key (k : key) (df : DataFrame) : bool :=
  existsb (key_eqb k) (index df).

Inductive how : Set := Right | Outer.

(** The rows a row [(k, own)] of the driving side yields: one per row of the
    other side with the same key, or itself when there is none (the other
    side's cells are then missing). *)
Definition pair_rows (glue : cells -> cells -> cells) (other : DataFrame)
    (kr : key * cells) : list (key * cells) :=
  match lookup_rows (fst kr) other with
  | [] => [kr]
  | ms => map (fun m => (fst kr, glue (snd kr) m)) ms
  end.

(** [left.join(other, how=...)] on the index, for the two kinds of join the
    module asks for.  Both frames keep their own columns, so a label on both
    sides raises ValueError (no suffix is given).  Keys that occur more than
    once are paired in all combinations.  The order of the rows is the
    driving side's; pandas may sort an outer join. *)
Definition join (left other : DataFrame) (h : how) : result DataFrame :=
  if overlap (columns left) (columns other) then Raise ValueError
  else Ok {| columns := (columns left ++ columns other)%list;
             rows :=
               match h with
               | Right =>
                   flat_map (pair_rows (fun r l => l ∪ r) left) (rows other)
               | Outer =>
                   (flat_map (pair_rows (fun l r => l ∪ r) other) (rows left)
                    ++ List.filter (fun kr => negb (has_key (fst kr) left))
                         (rows other))%list
               end |}.

Definition fill_row (v : Z) (labels : list string) (m : cells) : cells :=
  foldr (fun c acc => match acc !! c with
                      | Some _ => acc
                      | None => <[c := v]> acc
                      end) m labels.

(** [df.fillna(v)] *)
Definition fillna (v : Z) (df : DataFrame) : DataFrame :=
  {| columns := columns df;
     rows := map (fun kr => (fst kr, fill_row v (columns df) (snd kr))) (rows df) |}.

(** ** Chromosome partition *)

(** A count table of one input has Chromosome and Bin as the key of each
    row; [columns] are its sample columns.  With these two columns always
    there, [df.empty] says that the table has no row, and a table with rows
    is filed under the Chromosome of its first row; a later table of the same
    chromosome takes the place of an earlier one. *)
Definition put_dfs_in_chromosome_dict (dfs : list DataFrame) : gmap string DataFrame :=
  fold_left
    (fun chromosome_dict df =>
       match rows df with
       | [] => chromosome_dict
       | (k, _) :: _ => <[fst k := df]> chromosome_dict
       end)
    dfs ∅.

(** The table kept for [chromosome], or [pd.DataFrame(columns=["Chromosome",
    "Bin"])], which has no sample column and no row. *)
Definition get_chromosome_df (chromosome : string) (df_dict : gmap string DataFrame)
    : DataFrame :=
  match df_dict !! chromosome with
  | Some df => df
  | None => {| columns := []; rows := [] |}
  end.

(** ** Natural order of chromosome names: [natsorted] *)

Inductive chunk : Set := Text (s : string) | Num (digits : list ascii).

Definition is_digit (a : ascii) : bool :=
  let n := N_of_ascii a in (48 <=? n)%N && (n <=? 57)%N.

(** Maximal runs of digits and of other characters. *)
Fixpoint chunks (s : string) : list chunk :=
  match s with
  | EmptyString => []
  | String a s' =>
      if is_digit a
      then match chunks s' with
           | Num ds :: r => Num (a :: ds) :: r
           | r => Num [a] :: r
           end
      else match chunks s' with
           | Text t :: r => Text (String a t) :: r
           | r => Text (String a EmptyString) :: r
           end
  end.

Definition digits_value (ds : list ascii) : N :=
  fold_left (fun acc a => (10 * acc + (N_of_ascii a - 48))%N) ds 0%N.

(** The sort key: text and numbers in turn, text first. *)
Definition natsort_key (s : string) : list chunk :=
  match chunks s with
  | Num ds :: r => Text EmptyString :: Num ds :: r
  | r => r
  end.

Definition chunk_compare (c1 c2 : chunk) : comparison :=
  match c1, c2 with
  | Text s1, Text s2 => String.compare s1 s2
  | Num d1, Num d2 => N.compare (digits_value d1) (digits_value d2)
  | Text _, Num _ => Lt
  | Num _, Text _ => Gt
  end.

Fixpoint key_compare (k1 k2 : list chunk) : comparison :=
  match k1, k2 with
  | [], [] => Eq
  | [], _ :: _ => Lt
  | _ :: _, [] => Gt
  | c1 :: k1', c2 :: k2' =>
      match chunk_compare c1 c2 with
      | Eq => key_compare k1' k2'
      | c => c
      end
  end.

Definition natsort_leb (s1 s2 : string) : bool :=
  match key_compare (natsort_key s1) (natsort_key s2) with
  | Gt => false
  | _ => true
  end.

Fixpoint insert_sorted (x : string) (l : list string) : list string :=
  match l with
  | [] => [x]
  | y :: l' => if natsort_leb x y then x :: y :: l' else y :: insert_sorted x l'
  end.

(** A stable sort by [natsort_key]. *)
Definition natsorted (l : list string) : list string :=
  foldr insert_sorted [] l.

(** ** Matrixes per chromosome: [_create_matrixes] and [create_matrixes] *)

(** The casts of Chromosome and Bin and [set_index] change nothing in a
    table that is keyed by (Chromosome, Bin) already. *)
Definition _create_matrixes (chromosome : string)
    (chip input : gmap string DataFrame) (islands : DataFrame) : result DataFrame :=
  let chip_df := get_chromosome_df chromosome chip in
  let input_df := get_chromosome_df chromosome input in
  chip_df ← join islands chip_df Right;
  dfm ← join chip_df input_df Outer;
  Ok (fillna 0 dfm).

(** The treatment side after its join with the islands, the first of the
    two joins of [_create_matrixes]. *)
Definition treatment_join (chromosome : string) (chip : gmap string DataFrame)
    (islands : DataFrame) : result DataFrame :=
  join islands (get_chromosome_df chromosome chip) Right.

(** The chromosomes of either partition, each once. *)
Definition all_chromosomes (chip input : gmap string DataFrame) : list string :=
  natsorted (elements (dom chip ∪ dom input)).

(** The jobs run one per chromosome and come back in the order they were
    given; a job that raises ends the call. *)
Definition create_matrixes (chip input : list DataFrame) (df : list Region)
    (args : Args.t) : result (list DataFrame) :=
  let chip := put_dfs_in_chromosome_dict chip in
  let input := put_dfs_in_chromosome_dict input in
  let all_chromosomes := all_chromosomes chip input in
  islands ← enriched_bins df args;
  mapM (fun chromosome => _create_matrixes chromosome chip input islands)
       all_chromosomes.

(** ** Columns, sums and casts *)

(** [matrix[name]]: KeyError when there is no such column. *)
Definition getitem (matrix : DataFrame) (name : string) : result Series :=
  if mem name (columns matrix)
  then Ok (map (fun kr => (fst kr, snd kr !! name)) (rows matrix))
  else Raise KeyError.

(** [matrix[names]] for a list of labels, which all have to be columns.
    The columns of a frame are those that [columns] lists: a cell under
    another label is not seen by any operation. *)
Definition getitems (matrix : DataFrame) (names : list string) : result DataFrame :=
  if forallb (fun name => mem name (columns matrix)) names
  then Ok {| columns := names; rows := rows matrix |}
  else Raise KeyError.

(** The sum of the values of a row that are there: NaN is skipped, and the
    sum of no value at all is 0. *)
Definition row_sum (labels : list string) (m : cells) : Z :=
  fold_right (fun c acc => default 0 (m !! c) + acc) 0 labels.

(** [df.sum(1)] *)
Definition sum_rows (df : DataFrame) : Series :=
  map (fun kr => (fst kr, Some (row_sum (columns df) (snd kr)))) (rows df).

(** [s[s > 0]]: a comparison with NaN is false. *)
Definition positive_only (s : Series) : Series :=
  List.filter (fun kv => match snd kv with
                         | Some z => 0 <? z
                         | None => false
                         end) s.

(** [s[s != 0]]: NaN differs from 0. *)
Definition except_zero (s : Series) : Series :=
  List.filter (fun kv => match snd kv with
                         | Some z => negb (z =? 0)
                         | None => true
                         end) s.

Definition dropna (s : Series) : Series :=
  List.filter (fun kv => match snd kv with
                         | Some _ => true
                         | None => false
                         end) s.

(** [s.astype(int)]: a NaN cannot be cast and raises ValueError. *)
Definition astype_int (s : Series) : result Series :=
  if forallb (fun kv => match snd kv with
                        | Some _ => true
                        | None => false
                        end) s
  then Ok s
  else Raise ValueError.

Definition complete (labels : list string) (m : cells) : bool :=
  forallb (fun c => match m !! c with
                    | Some _ => true
                    | None => false
                    end) labels.

(** [df.astype(int)] *)
Definition frame_astype_int (df : DataFrame) : result DataFrame :=
  if forallb (fun kr => complete (columns df) (snd kr)) (rows df)
  then Ok df
  else Raise ValueError.

(** [pd.concat(dfs, axis=0)]: the rows of all frames under the union of
    their columns, here in the order in which the labels come up; nothing to
    concatenate raises ValueError. *)
Definition concat (dfs : list DataFrame) : result DataFrame :=
  match dfs with
  | [] => Raise ValueError
  | _ => Ok {| columns := unique (flat_map columns dfs);
               rows := flat_map rows dfs |}
  end.

(** [df.drop(label, axis=1)] *)
Definition drop (label : string) (df : DataFrame) : result DataFrame :=
  if mem label (columns df)
  then Ok {| columns := List.filter (fun c => negb (String.eqb c label)) (columns df);
             rows := map (fun kr => (fst kr, delete label (snd kr))) (rows df) |}
  else Raise KeyError.

(** ** Files *)

Inductive field : Set := Int (z : Z) | Token (s : string).

Inductive line : Type :=
| Header (labels : list string)
| Data (k : key) (fields : list field).

(** The files written so far, by path. *)
Abbreviation files := (gmap string (list line)).

Inductive mode : Set := Truncate | Append.

Definition write (path : string) (m : mode) (ls : list line) (fs : files) : files :=
  match m with
  | Truncate => <[path := ls]> fs
  | Append => <[path := (default [] (fs !! path) ++ ls)%list]> fs
  end.

Definition show_cell (na_rep : string) (v : option Z) : field :=
  match v with
  | Some z => Int z
  | None => Token na_rep
  end.

(** [s.to_csv(path, na_rep=...)]: one line per entry; the header line that
    later versions of pandas put first is left out. *)
Definition series_lines (na_rep : string) (s : Series) : list line :=
  map (fun kv => Data (fst kv) [show_cell na_rep (snd kv)]) s.

(** [df.to_csv(path, na_rep=..., header=...)] *)
Definition frame_lines (na_rep : string) (header : bool) (df : DataFrame) : list line :=
  ((if header then [Header ("Chromosome" :: "Bin" :: columns df)] else [])
   ++ map (fun kr => Data (fst kr)
                       (map (fun c => show_cell na_rep (snd kr !! c)) (columns df)))
        (rows df))%list.

(** ** Paths *)

(** [s.split(sep)] for a separator of one character. *)
Fixpoint split (sep : ascii) (s : string) : list string :=
  match s with
  | EmptyString => [EmptyString]
  | String a s' =>
      if Ascii.eqb a sep then EmptyString :: split sep s'
      else match split sep s' with
           | h :: t => String a h :: t
           | [] => [String a EmptyString]
           end
  end.

(** [os.path.basename] *)
Definition basename (p : string) : string :=
  List.last (split "/" p) EmptyString.

Definition ends_with_slash (p : string) : bool :=
  match List.last (list_ascii_of_string p) "a"%char with
  | "/"%char => true
  | _ => false
  end.

(** [os.path.join(a, b)] *)
Definition path_join (a b : string) : string :=
  match b with
  | String "/" _ => b
  | _ => if String.eqb a "" || ends_with_slash a then a +:+ b
         else a +:+ "/" +:+ b
  end.

(** [seq[:-n]] *)
Definition drop_last {A} (n : nat) (l : list A) : list A :=
  firstn (length l - n) l.

(** [sep.join(l)] with the empty separator. *)
Definition join_empty (l : list string) : string :=
  fold_right String.append "" l.

(** ** Bedgraph tracks: [bedgraph], [_individual_bedgraphs] *)

(** One track of [bedgraph]: the lines written for the columns [names]. *)
Definition sum_track (matrix : DataFrame) (names : list string) : result (list line) :=
  sub ← getitems matrix names;
  let c_sum := sum_rows sub in
  let c := positive_only c_sum in
  c ← astype_int c;
  Ok (series_lines "" c).

(** A path of [args] that a function takes apart; [None] cannot be joined
    to a file name and raises TypeError. *)
Definition path_of (o : option string) : result string :=
  match o with
  | Some outfolder => Ok outfolder
  | None => Raise TypeError
  end.

Definition bedgraph (matrix : DataFrame) (args : Args.t) (fs : files)
    : result files :=
  outfolder ← path_of (Args.bedgraph args);
  let chip_file := path_join outfolder "treatment.bedgraph" in
  let input_file := path_join outfolder "input.bedgraph" in
  c ← sum_track matrix (Args.treatment args);
  let fs := write chip_file Truncate c fs in
  i ← sum_track matrix (Args.control args);
  Ok (write input_file Truncate i fs).

(** The name of the track of the file [name], without its directory. *)
Definition track_base (name : string) : string :=
  let base := split "." (basename name) in
  if (2 <? length base)%nat
  then join_empty (drop_last 2 base)
  else join_empty (drop_last 1 base).

(** The lines of the track of the file [name]. *)
Definition track_lines (matrix : DataFrame) (name : string) : result (list line) :=
  s ← getitem matrix name;
  let nonzeroes_only := dropna (except_zero s) in
  s ← astype_int nonzeroes_only;
  Ok (series_lines "NA" s).

Definition _individual_bedgraphs (matrix : DataFrame) (name outfolder : string)
    (fs : files) : result files :=
  let base := track_base name in
  let outfile := path_join outfolder (base +:+ ".bedgraph") in
  ls ← track_lines matrix name;
  Ok (write outfile Truncate ls fs).

Fixpoint for_each {A S} (f : A -> S -> result S) (l : list A) (s : S) : result S :=
  match l with
  | [] => Ok s
  | x :: l' => s' ← f x s; for_each f l' s'
  end.

Definition individual_bedgraphs (matrix : DataFrame) (args : Args.t)
    (fs : files) : result files :=
  outfolder ← path_of (Args.individual_bedgraph args);
  fs ← for_each (fun treatment_file => _individual_bedgraphs matrix treatment_file outfolder)
        (Args.treatment args) fs;
  for_each (fun control_file => _individual_bedgraphs matrix control_file outfolder)
    (Args.control args) fs.

(** ** Matrix file: [print_matrixes] *)

(** The loop over [enumerate(matrixes)], from position [i] on. *)
Fixpoint print_from (i : nat) (matrixes : list DataFrame) (outpath : string)
    (fs : files) : result files :=
  match matrixes with
  | [] => Ok fs
  | df :: matrixes' =>
      let '(header, m) := if (i =? 0)%nat then (true, Truncate) else (false, Append) in
      df ← frame_astype_int df;
      print_from (S i) matrixes' outpath (write outpath m (frame_lines "NA" header df) fs)
  end.

Definition print_matrixes (matrixes : list DataFrame) (args : Args.t)
    (fs : files) : result files :=
  outpath ← path_of (Args.store_matrix args);
  print_from 0 matrixes outpath fs.

(** ** The entry point: [write_matrix_files] *)

Definition write_matrix_files (chip_merged input_merged : list DataFrame)
    (df : list Region) (args : Args.t) (fs : files) : result files :=
  matrixes ← create_matrixes chip_merged input_merged df args;
  fs ← (if truthy (Args.store_matrix args)
        then print_matrixes matrixes args fs
        else Ok fs);
  matrix ← concat matrixes;
  matrix ← drop "Island" matrix;
  fs ← (if truthy (Args.individual_bedgraph args)
        then individual_bedgraphs matrix args fs
        else Ok fs);
  if truthy (Args.bedgraph args)
  then bedgraph matrix args fs
  else Ok fs.

(** ** Auxiliary notions for the statements *)

(** The (Chromosome, bin) pairs that the two loops of [enriched_bins] go
    through, in order, for the rows [df] that passed the cutoff. *)
Definition island_pairs (window_size : Z) (df : list Region) : list key :=
  flat_map (fun row => map (pair (Chromosome row))
                         (range_list (Start row) (End row + 2) window_size)) df.

(** How often a key occurs. *)
Definition count_key (k : key) (l : list key) : nat :=
  length (List.filter (key_eqb k) l).

(** The row [row] passes the cutoff and its bins include [k]. *)
Definition yields (args : Args.t) (k : key) (row : Region) : bool :=
  below_cutoff args row
  && String.eqb (Chromosome row) (fst k)
  && existsb (Z.eqb (snd k))
       (range_list (Start row) (End row + 2) (Args.window_size args)).

Definition island_cells : cells := {[ "Island" := 1 ]}.

(** The bin of [k] is one of the steps from [Start] that stay below
    [End + 2], on the chromosome of [row]. *)
Definition generates (args : Args.t) (row : Region) (k : key) : Prop :=
  Chromosome row = fst k /\
  exists n : nat,
    snd k = Start row + Z.of_nat n * Args.window_size args /\
    snd k < End row + 2.

(** A table of one chromosome, as the partition takes its tables to be. *)
Definition single_chromosome (df : DataFrame) : Prop :=
  forall k k', In k (index df) -> In k' (index df) -> fst k = fst k'.

(** The lines of a track of sums over the columns [names]. *)
Definition sum_lines (matrix : DataFrame) (names : list string) : list line :=
  map (fun kr => Data (fst kr) [Int (row_sum names (snd kr))])
      (List.filter (fun kr => 0 <? row_sum names (snd kr)) (rows matrix)).


(** The character [sep] does not occur in [s]. *)
Fixpoint free (sep : ascii) (s : string) : bool :=
  match s with
  | EmptyString => true
  | String a s' => negb (Ascii.eqb a sep) && free sep s'
  end.

(** ** Sample data *)

(** A window of 100, a cutoff of 0.05, one treatment and one control file. *)
Definition args0 : Args.t :=
  Args.mk 100 0.05%float 1 ["t.bed"] ["c.bed"] None None None.

(** Options that ask for the tracks only. *)
Definition args_tracks : Args.t :=
  Args.mk 100 0.05%float 1 ["t.bed"] ["c.bed"] None (Some "bg") (Some "ibg").

(** Options that ask for the matrix file only. *)
Definition args_store : Args.t :=
  Args.mk 100 0.05%float 1 ["t.bed"] ["c.bed"] (Some "matrix.gz") None None.

(** The region of the example of the specification, below the cutoff. *)
Definition region0 : Region := mkRegion "chr1" 100 250 0.01%float.

(** A region on a chromosome without any count. *)
Definition region3 : Region := mkRegion "chr3" 100 250 0.01%float.

Definition t1 : DataFrame :=
  {| columns := ["t.bed"];
     rows := [(("chr1", 100), {[ "t.bed" := 5 ]});
              (("chr1", 200), {[ "t.bed" := 3 ]})] |}.

Definition c1 : DataFrame :=
  {| columns := ["c.bed"];
     rows := [(("chr1", 100), {[ "c.bed" := 1 ]})] |}.

(** A control table on another chromosome than [t1]. *)
Definition c2 : DataFrame :=
  {| columns := ["c.bed"];
     rows := [(("chr2", 100), {[ "c.bed" := 1 ]})] |}.

(** The index of [region0] for a window of 100. *)
Definition islands0 : DataFrame :=
  {| columns := ["Island"];
     rows := [(("chr1", 100), island_cells); (("chr1", 200), island_cells)] |}.

(** The index of the region chr1:50-250 for a window of 100. *)
Definition islands1 : DataFrame :=
  {| columns := ["Island"];
     rows := [(("chr1", 50), island_cells); (("chr1", 150), island_cells);
              (("chr1", 250), island_cells)] |}.

(** The merged matrix of chr1 for the treatment table [t1], the control
    table [c1] and no island bin on a treatment row. *)
Definition m1 : DataFrame :=
  {| columns := ["Island"; "t.bed"; "c.bed"];
     rows := [(("chr1", 100), <["Island" := 0]> (<["t.bed" := 5]> {[ "c.bed" := 1 ]}));
              (("chr1", 200), <["Island" := 0]> (<["t.bed" := 3]> {[ "c.bed" := 0 ]}))] |}.

(** The merged matrix of chr1 for [t1], [c1] and the island bins 100, 200. *)
Definition m3 : DataFrame :=
  {| columns := ["Island"; "t.bed"; "c.bed"];
     rows := [(("chr1", 100), <["Island" := 1]> (<["t.bed" := 5]> {[ "c.bed" := 1 ]}));
              (("chr1", 200), <["Island" := 1]> (<["t.bed" := 3]> {[ "c.bed" := 0 ]}))] |}.

(** The matrix handed to the exporters for [t1] on chr1 and [c2] on chr2:
    the two frames stacked, without the Island column. *)
Definition m2 : DataFrame :=
  {| columns := ["t.bed"; "c.bed"];
     rows := [(("chr1", 100), {[ "t.bed" := 5 ]});
              (("chr1", 200), {[ "t.bed" := 3 ]});
              (("chr2", 100), {[ "c.bed" := 1 ]})] |}.

(** ** Further notions *)

(** [put_dfs_in_dict]: the loop of [put_dfs_in_chromosome_dict] under
    another name. *)
Definition put_dfs_in_dict (dfs : list DataFrame) : gmap string DataFrame :=
  fold_left
    (fun sample_dict df =>
       match rows df with
       | [] => sample_dict
       | (k, _) :: _ => <[fst k := df]> sample_dict
       end)
    dfs ∅.

(** The chromosome a table is filed under, that of its first row; a table
    without rows has none. *)
Definition first_chromosome (df : DataFrame) : option string :=
  match rows df with
  | [] => None
  | (k, _) :: _ => Some (fst k)
  end.

(** One turn of the loop of the partition. *)
Definition file_table (chromosome_dict : gmap string DataFrame) (df : DataFrame)
    : gmap string DataFrame :=
  match rows df with
  | [] => chromosome_dict
  | (k, _) :: _ => <[fst k := df]> chromosome_dict
  end.

(** A second treatment table of chr1. *)
Definition t1' : DataFrame :=
  {| columns := ["t.bed"];
     rows := [(("chr1", 300), {[ "t.bed" := 7 ]})] |}.

(** A table without rows. *)
Definition t_empty : DataFrame := {| columns := ["t.bed"]; rows := [] |}.


(** No cell of [df] is missing. *)
Definition no_missing (df : DataFrame) : Prop :=
  forall k m c, In (k, m) (rows df) -> In c (columns df) -> is_Some (m !! c).

(** The lines of the rows of [df] in the matrix file, without a header. *)
Definition data_lines (df : DataFrame) : list line :=
  map (fun kr => Data (fst kr)
                   (map (fun c => show_cell "NA" (snd kr !! c)) (columns df)))
      (rows df).

(** The path of the track of the file [name] in [outfolder]. *)
Definition track_path (outfolder name : string) : string :=
  path_join outfolder (track_base name +:+ ".bedgraph").

(** The lines of the track of the file [name]: its counts that are there
    and are not 0. *)
Definition nonzero_lines (matrix : DataFrame) (name : string) : list line :=
  series_lines "NA"
    (dropna (except_zero (map (fun kr => (fst kr, snd kr !! name)) (rows matrix)))).

(** A matrix with the columns of two files of the same name. *)
Definition m_dirs : DataFrame :=
  {| columns := ["a/s.bed"; "b/s.bed"];
     rows := [(("chr1", 100), <["a/s.bed" := 2]> {[ "b/s.bed" := 4 ]})] |}.

(** Options that ask for the tracks of these two files. *)
Definition args_dirs : Args.t :=
  Args.mk 100 0.05%float 1 ["a/s.bed"] ["b/s.bed"] None None (Some "ibg").

(** Options with a window size of 0. *)
Definition args_zero : Args.t :=
  Args.mk 0 0.05%float 1 ["t.bed"] ["c.bed"] None None None.

(** A region that spans the two windows 100-199 and 200-299. *)
Definition region_whole : Region := mkRegion "chr1" 100 299 0.01%float.

(** * Properties *)

(** ** Results *)

Lemma bind_Ok {A B} (m : result A) (f : A -> result B) (b : B) :
  m ≫= f = Ok b -> exists a, m = Ok a /\ f a = Ok b.
Proof. destruct m as [a|e]; simpl; [eauto | discriminate]. Qed.

Ltac inv_bind H :=
  let a := fresh "a" in
  let Ha := fresh "Ha" in
  apply bind_Ok in H; destruct H as [a [Ha H]].

Lemma mapM_Ok_In {A B} (f : A -> result B) (l : list A) (l' : list B) :
  mapM f l = Ok l' ->
  forall y, In y l' -> exists x, In x l /\ f x = Ok y.
Proof.
  revert l'. induction l as [|x l IH]; simpl; intros l' H y Hy.
  - injection H as <-. destruct Hy.
  - inv_bind H. inv_bind H. injection H as <-.
    destruct Hy as [<-|Hy]; [eauto|].
    destruct (IH _ Ha0 _ Hy) as [x' [? ?]]; eauto.
Qed.

(** ** Keys and labels *)

Lemma key_eqb_eq (k1 k2 : key) : key_eqb k1 k2 = true <-> k1 = k2.
Proof.
  destruct k1 as [c1 b1], k2 as [c2 b2]. unfold key_eqb. simpl.
  rewrite andb_true_iff, String.eqb_eq, Z.eqb_eq.
  split; [intros [-> ->]; reflexivity | intros [= -> ->]; auto].
Qed.

Lemma key_eqb_refl (k : key) : key_eqb k k = true.
Proof. apply key_eqb_eq. reflexivity. Qed.

Lemma key_eqb_neq (k1 k2 : key) : key_eqb k1 k2 = false <-> k1 <> k2.
Proof.
  rewrite <- key_eqb_eq. destruct (key_eqb k1 k2); split; congruence.
Qed.

Lemma mem_In (s : string) (l : list string) : mem s l = true <-> In s l.
Proof.
  unfold mem. rewrite existsb_exists. split.
  - intros [x [Hx He]]. apply String.eqb_eq in He. subst. exact Hx.
  - intros H. exists s. split; [exact H | apply String.eqb_refl].
Qed.


(** ** [range] *)

Lemma range_list_In (start stop step b : Z) :
  0 < step ->
  In b (range_list start stop step) <->
  exists n : nat, b = start + Z.of_nat n * step /\ b < stop.
Proof.
  intros Hstep. unfold range_list. rewrite in_map_iff. unfold range_len.
  assert ((0 <? step) = true) as -> by (apply Z.ltb_lt; exact Hstep).
  split.
  - intros [i [Hb Hi]]. apply in_seq in Hi. exists i. split; [auto|].
    destruct (start <? stop) eqn:E; [|simpl in Hi; lia].
    apply Z.ltb_lt in E.
    pose proof (Z.mul_div_le (stop - start - 1) step Hstep) as Hd.
    assert (Z.of_nat i <= (stop - start - 1) / step) as Hi'.
    { assert (0 <= (stop - start - 1) / step) by (apply Z.div_pos; lia). lia. }
    subst b. nia.
  - intros [n [Hb Hlt]]. exists n. split; [auto|]. apply in_seq.
    assert (start < stop) as E by nia.
    apply Z.ltb_lt in E as E'. rewrite E'.
    assert (Z.of_nat n <= (stop - start - 1) / step) as Hn.
    { apply Z.div_le_lower_bound; [exact Hstep | nia]. }
    lia.
Qed.

Lemma range_list_NoDup (start stop step : Z) :
  0 < step -> List.NoDup (range_list start stop step).
Proof.
  intros Hstep. unfold range_list. apply Injective_map_NoDup_in.
  - intros x y _ _ H. nia.
  - apply seq_NoDup.
Qed.

(** ** [enriched_bins] *)

Lemma idx_rowdicts_Ok (w : Z) (df : list Region) :
  w <> 0 ->
  idx_rowdicts w df
  = Ok (map (fun k => island_rowdict (fst k) (snd k)) (island_pairs w df)).
Proof.
  intros Hw. induction df as [|row df IH]; simpl; [reflexivity|].
  unfold row_rowdicts, range. apply Z.eqb_neq in Hw. rewrite Hw. simpl.
  rewrite IH. simpl. rewrite map_app, map_map. reflexivity.
Qed.

Lemma from_dict_columns (pairs : list key) :
  raw_columns (from_dict (map (fun k => island_rowdict (fst k) (snd k)) pairs))
  = match pairs with
    | [] => []
    | _ :: _ => ["Chromosome"; "Bin"; "Island"]
    end.
Proof.
  unfold from_dict. simpl. induction pairs as [|k pairs IH]; [reflexivity|].
  simpl. simpl in IH. rewrite IH. destruct pairs; reflexivity.
Qed.

Lemma index_row_island (k : key) :
  index_row ["Island"] (island_rowdict (fst k) (snd k)) = Ok (k, island_cells).
Proof. destruct k. reflexivity. Qed.

Lemma mapM_index_row (pairs : list key) :
  mapM (index_row ["Island"]) (map (fun k => island_rowdict (fst k) (snd k)) pairs)
  = Ok (map (fun k => (k, island_cells)) pairs).
Proof.
  induction pairs as [|k pairs IH]; [reflexivity|].
  cbn [map mapM]. rewrite index_row_island, IH. reflexivity.
Qed.

(** The outcome of [enriched_bins], in closed form. *)
Lemma enriched_bins_eq (df : list Region) (args : Args.t) :
  Args.window_size args <> 0 ->
  enriched_bins df args
  = match island_pairs (Args.window_size args) (List.filter (below_cutoff args) df) with
    | [] => Raise KeyError
    | pairs => Ok {| columns := ["Island"];
                     rows := map (fun k => (k, island_cells)) pairs |}
    end.
Proof.
  intros Hw. unfold enriched_bins. rewrite (idx_rowdicts_Ok _ _ Hw).
  set (pairs := island_pairs _ _). simpl.
  unfold loc_column, set_index. rewrite from_dict_columns.
  destruct pairs as [|k pairs]; [reflexivity|].
  remember (k :: pairs) as l eqn:El. simpl.
  rewrite mapM_index_row. subst l. reflexivity.
Qed.

Lemma enriched_bins_Ok_index (df : list Region) (args : Args.t) (islands : DataFrame) :
  Args.window_size args <> 0 ->
  enriched_bins df args = Ok islands ->
  index islands
  = island_pairs (Args.window_size args) (List.filter (below_cutoff args) df).
Proof.
  intros Hw H. rewrite enriched_bins_eq in H by exact Hw.
  destruct (island_pairs _ _) as [|k0 pairs]; [discriminate|].
  injection H as <-. unfold index. simpl.
  rewrite map_map. simpl. rewrite map_id. reflexivity.
Qed.

Lemma island_pairs_In (w : Z) (df : list Region) (k : key) :
  0 < w ->
  In k (island_pairs w df) <->
  exists row, In row df /\ Chromosome row = fst k /\
    exists n : nat, snd k = Start row + Z.of_nat n * w /\ snd k < End row + 2.
Proof.
  intros Hw. unfold island_pairs. rewrite in_flat_map. split.
  - intros [row [Hrow Hk]]. apply in_map_iff in Hk as [b [<- Hb]].
    apply range_list_In in Hb; [|exact Hw]. exists row. simpl. auto.
  - intros [row [Hrow [Hc Hn]]]. exists row. split; [exact Hrow|].
    apply in_map_iff. exists (snd k). split.
    + rewrite Hc. destruct k; reflexivity.
    + apply range_list_In; assumption.
Qed.

Lemma filter_none {A} (f : A -> bool) (l : list A) :
  (forall x, In x l -> f x = false) -> List.filter f l = [].
Proof.
  induction l as [|x l IH]; simpl; intros H; [reflexivity|].
  rewrite (H x) by auto. apply IH. auto.
Qed.

(** C7: the index holds the bins of exactly the rows whose FDR is below the
    cutoff, and the bins of such a row are Start, Start + window_size, ...
    as long as they are below End + 2; when no bin is generated at all the
    call raises KeyError instead.  For Start=100, End=250 and a window of 100
    the bins are 100 and 200. *)
Theorem enriched_bins_index (df : list Region) (args : Args.t) :
  0 < Args.window_size args ->
  match enriched_bins df args with
  | Ok islands =>
      forall k, In k (index islands) <->
        exists row, In row df /\ below_cutoff args row = true /\ generates args row k
  | Raise e =>
      e = KeyError /\
      forall k row, In row df -> below_cutoff args row = true -> ~ generates args row k
  end
  /\ (forall c fdr,
        Args.window_size args = 100 ->
        below_cutoff args (mkRegion c 100 250 fdr) = true ->
        index <$> enriched_bins [mkRegion c 100 250 fdr] args
        = Ok [(c, 100); (c, 200)]).
Proof.
  intros Hw.
  assert (forall df' k,
    In k (island_pairs (Args.window_size args) (List.filter (below_cutoff args) df')) <->
    exists row, In row df' /\ below_cutoff args row = true /\ generates args row k)
    as Hpairs.
  { intros df' k. rewrite (island_pairs_In _ _ _ Hw). unfold generates. split.
    - intros [row [Hrow H]]. apply filter_In in Hrow. exists row. tauto.
    - intros [row [Hrow [Hb H]]]. exists row. rewrite filter_In. tauto. }
  split.
  - rewrite enriched_bins_eq by lia.
    destruct (island_pairs _ _) as [|k0 pairs] eqn:E.
    + split; [reflexivity|]. intros k row Hrow Hb Hg.
      assert (In k []) as []. rewrite <- E. apply Hpairs. eauto.
    + intros k. rewrite <- E, <- Hpairs. unfold index. simpl rows.
      rewrite map_map. simpl. rewrite map_id. reflexivity.
  - intros c fdr Hw100 Hb. rewrite enriched_bins_eq by lia. simpl.
    rewrite Hb, Hw100. reflexivity.
Qed.

Lemma enriched_bins_index_witness :
  0 < Args.window_size args0 /\
  enriched_bins [region0] args0 = Ok islands0 /\
  (forall k, In k (index islands0) <->
     exists row, In row [region0] /\ below_cutoff args0 row = true /\
                 generates args0 row k) /\
  index islands0 = [("chr1", 100); ("chr1", 200)].
Proof.
  assert (enriched_bins [region0] args0 = Ok islands0) as E
    by (vm_compute; reflexivity).
  pose proof (enriched_bins_index [region0] args0 eq_refl) as [H _].
  rewrite E in H.
  split; [reflexivity|]. split; [exact E|]. split; [exact H | reflexivity].
Defined.

(** C3: when no row has its FDR below the cutoff, [enriched_bins] raises
    KeyError (the frame built from no row dict has no "Chromosome" column),
    and so does the whole of [write_matrix_files]. *)
Theorem no_enriched_region_raises (df : list Region) (args : Args.t) :
  (forall row, In row df -> below_cutoff args row = false) ->
  enriched_bins df args = Raise KeyError /\
  forall chip_merged input_merged fs,
    write_matrix_files chip_merged input_merged df args fs = Raise KeyError.
Proof.
  intros H.
  assert (enriched_bins df args = Raise KeyError) as E.
  { unfold enriched_bins. rewrite (filter_none _ _ H). reflexivity. }
  split; [exact E|]. intros chip_merged input_merged fs.
  unfold write_matrix_files, create_matrixes. rewrite E. reflexivity.
Qed.

Lemma no_enriched_region_raises_witness :
  (forall row, In row [mkRegion "chr1" 100 250 0.5%float] -> below_cutoff args0 row = false) /\
  enriched_bins [mkRegion "chr1" 100 250 0.5%float] args0 = Raise KeyError.
Proof.
  assert (forall row, In row [mkRegion "chr1" 100 250 0.5%float] ->
                      below_cutoff args0 row = false) as H.
  { intros row [<-|[]]. reflexivity. }
  split; [exact H|].
  exact (proj1 (no_enriched_region_raises _ args0 H)).
Defined.

(** ** Counting keys *)

Lemma count_key_app (k : key) (l1 l2 : list key) :
  count_key k (l1 ++ l2) = (count_key k l1 + count_key k l2)%nat.
Proof. unfold count_key. rewrite List.filter_app, List.length_app. reflexivity. Qed.

Lemma count_key_cons (k k' : key) (l : list key) :
  count_key k (k' :: l)
  = ((if key_eqb k k' then 1 else 0) + count_key k l)%nat.
Proof. unfold count_key. simpl. destruct (key_eqb k k'); reflexivity. Qed.

Lemma count_key_pos (k : key) (l : list key) :
  In k l <-> (0 < count_key k l)%nat.
Proof.
  induction l as [|k' l IH]; simpl.
  - unfold count_key. simpl. lia.
  - rewrite count_key_cons. destruct (key_eqb k k') eqn:E.
    + apply key_eqb_eq in E. subst. split; [lia | auto].
    + apply key_eqb_neq in E. rewrite IH. simpl. split; [|tauto].
      intros [?|?]; [congruence | assumption].
Qed.

Lemma count_key_repeat (k k' : key) (n : nat) :
  count_key k (repeat k' n) = if key_eqb k k' then n else 0%nat.
Proof.
  induction n as [|n IH]; simpl.
  - destruct (key_eqb k k'); reflexivity.
  - rewrite count_key_cons, IH. destruct (key_eqb k k'); reflexivity.
Qed.

Lemma count_key_NoDup_pair (c c' : string) (b : Z) (l : list Z) :
  List.NoDup l ->
  count_key (c, b) (map (pair c') l)
  = if String.eqb c' c && existsb (Z.eqb b) l then 1%nat else 0%nat.
Proof.
  induction 1 as [|x l Hx Hl IH]; simpl.
  - rewrite andb_false_r. reflexivity.
  - rewrite count_key_cons, IH. unfold key_eqb. simpl.
    rewrite (String.eqb_sym c c').
    destruct (String.eqb c' c); simpl; [|reflexivity].
    destruct (Z.eqb_spec b x) as [->|Hne]; simpl; [|reflexivity].
    destruct (existsb (Z.eqb x) l) eqn:E; [|reflexivity].
    apply existsb_exists in E as [y [Hy E]]. apply Z.eqb_eq in E. subst y.
    contradiction.
Qed.

(** ** Joins *)

Lemma lookup_rows_length (k : key) (df : DataFrame) :
  length (lookup_rows k df) = count_key k (index df).
Proof.
  unfold lookup_rows, count_key, index. rewrite length_map.
  induction (rows df) as [|kr l IH]; simpl; [reflexivity|].
  destruct (key_eqb k (fst kr)); simpl; rewrite IH; reflexivity.
Qed.

Lemma lookup_rows_In (k : key) (df : DataFrame) (m : cells) :
  In m (lookup_rows k df) <-> In (k, m) (rows df).
Proof.
  unfold lookup_rows. rewrite in_map_iff. split.
  - intros [[k' m'] [<- H]]. apply filter_In in H as [H E].
    apply key_eqb_eq in E. simpl in E. subst. exact H.
  - intros H. exists (k, m). split; [reflexivity|].
    apply filter_In. split; [exact H | apply key_eqb_refl].
Qed.

Lemma pair_rows_index (glue : cells -> cells -> cells) (other : DataFrame)
    (kr : key * cells) :
  map fst (pair_rows glue other kr)
  = repeat (fst kr) (Nat.max 1 (count_key (fst kr) (index other))).
Proof.
  unfold pair_rows. rewrite <- lookup_rows_length.
  destruct (lookup_rows (fst kr) other) as [|m ms]; [reflexivity|].
  change (Nat.max 1 (length (m :: ms))) with (length (m :: ms)).
  induction (m :: ms) as [|m' l IH]; simpl; [reflexivity|].
  rewrite IH. reflexivity.
Qed.

Lemma count_key_pair_rows (glue : cells -> cells -> cells) (other : DataFrame)
    (rs : list (key * cells)) (k : key) :
  count_key k (map fst (flat_map (pair_rows glue other) rs))
  = (count_key k (map fst rs) * Nat.max 1 (count_key k (index other)))%nat.
Proof.
  induction rs as [|kr rs IH]; simpl; [reflexivity|].
  rewrite map_app, count_key_app, IH, pair_rows_index, count_key_repeat,
    count_key_cons.
  destruct (key_eqb k (fst kr)) eqn:E; [|lia].
  apply key_eqb_eq in E. subst k. lia.
Qed.

Lemma has_key_In (k : key) (df : DataFrame) :
  has_key k df = true <-> In k (index df).
Proof.
  unfold has_key. rewrite existsb_exists. split.
  - intros [k' [H E]]. apply key_eqb_eq in E. subst. exact H.
  - intros H. exists k. split; [exact H | apply key_eqb_refl].
Qed.

Lemma count_key_unmatched (left other : DataFrame) (k : key) :
  count_key k (map fst (List.filter (fun kr => negb (has_key (fst kr) left))
                          (rows other)))
  = if has_key k left then 0%nat else count_key k (index other).
Proof.
  unfold index. induction (rows other) as [|kr l IH]; simpl.
  - destruct (has_key k left); reflexivity.
  - rewrite count_key_cons.
    destruct (has_key (fst kr) left) eqn:E; simpl.
    + rewrite IH. destruct (key_eqb k (fst kr)) eqn:E'; [|reflexivity].
      apply key_eqb_eq in E'. subst k. rewrite E. reflexivity.
    + rewrite count_key_cons, IH.
      destruct (key_eqb k (fst kr)) eqn:E'; [|reflexivity].
      apply key_eqb_eq in E'. subst k. rewrite E. reflexivity.
Qed.

Lemma join_Ok (left other : DataFrame) (h : how) (joined : DataFrame) :
  join left other h = Ok joined ->
  overlap (columns left) (columns other) = false /\
  columns joined = (columns left ++ columns other)%list /\
  rows joined
  = match h with
    | Right => flat_map (pair_rows (fun r l => l ∪ r) left) (rows other)
    | Outer =>
        (flat_map (pair_rows (fun l r => l ∪ r) other) (rows left)
         ++ List.filter (fun kr => negb (has_key (fst kr) left)) (rows other))%list
    end.
Proof.
  unfold join. destruct (overlap _ _); [discriminate|].
  intros [= <-]. auto.
Qed.

Lemma join_right_count (left other joined : DataFrame) (k : key) :
  join left other Right = Ok joined ->
  count_key k (index joined)
  = (count_key k (index other) * Nat.max 1 (count_key k (index left)))%nat.
Proof.
  intros H. apply join_Ok in H as [_ [_ Hr]]. unfold index at 1.
  rewrite Hr. apply count_key_pair_rows.
Qed.

Lemma join_outer_count (left other joined : DataFrame) (k : key) :
  join left other Outer = Ok joined ->
  count_key k (index joined)
  = (count_key k (index left) * Nat.max 1 (count_key k (index other))
     + if has_key k left then 0 else count_key k (index other))%nat.
Proof.
  intros H. apply join_Ok in H as [_ [_ Hr]]. unfold index at 1.
  rewrite Hr, map_app, count_key_app, count_key_pair_rows, count_key_unmatched.
  reflexivity.
Qed.

Lemma fillna_index (v : Z) (df : DataFrame) : index (fillna v df) = index df.
Proof. unfold index, fillna. simpl. rewrite map_map. reflexivity. Qed.

Lemma pair_rows_In (glue : cells -> cells -> cells) (other : DataFrame)
    (kr : key * cells) (k : key) (m : cells) :
  In (k, m) (pair_rows glue other kr) ->
  k = fst kr /\
  ((~ In k (index other) /\ m = snd kr) \/
   (exists o, In (k, o) (rows other) /\ m = glue (snd kr) o)).
Proof.
  unfold pair_rows. destruct (lookup_rows (fst kr) other) as [|o os] eqn:E.
  - intros [E'|[]]. subst kr. simpl in *. split; [reflexivity|]. left.
    split; [|reflexivity].
    intros Hin. apply count_key_pos in Hin.
    rewrite <- lookup_rows_length, E in Hin. simpl in Hin. lia.
  - rewrite <- E. intros H. apply in_map_iff in H as [o' [[= <- <-] Ho]].
    split; [reflexivity|]. right. exists o'. split; [|reflexivity].
    apply lookup_rows_In. exact Ho.
Qed.

Lemma _create_matrixes_joins (chromosome : string)
    (chip input : gmap string DataFrame) (islands : DataFrame) :
  _create_matrixes chromosome chip input islands
  = (chip_df ← treatment_join chromosome chip islands;
     dfm ← join chip_df (get_chromosome_df chromosome input) Outer;
     Ok (fillna 0 dfm)).
Proof. reflexivity. Qed.

(** C1 (amended): the join of the treatment table with the island index is
    driven by the treatment table, and it succeeds when the two have no
    column label in common.  Its keys are the keys of the treatment rows of
    the chromosome; a treatment row whose key is no island bin stays as it
    is, without an Island marker; a row whose key is an island bin is the
    treatment row with the cells of the island entry.  An island bin without
    a treatment row gives no row. *)
Theorem treatment_join_index (chromosome : string) (chip : gmap string DataFrame)
    (islands : DataFrame) :
  overlap (columns islands) (columns (get_chromosome_df chromosome chip)) = false ->
  exists joined,
    treatment_join chromosome chip islands = Ok joined /\
    (forall k, In k (index joined) <->
               In k (index (get_chromosome_df chromosome chip))) /\
    (forall k m, In (k, m) (rows joined) -> ~ In k (index islands) ->
                 In (k, m) (rows (get_chromosome_df chromosome chip))) /\
    (forall k m, In (k, m) (rows joined) -> In k (index islands) ->
                 exists i t, In (k, i) (rows islands) /\
                             In (k, t) (rows (get_chromosome_df chromosome chip)) /\
                             m = i ∪ t).
Proof.
  unfold treatment_join. set (chip_df := get_chromosome_df chromosome chip).
  intros Hov.
  destruct (join islands chip_df Right) as [joined|e] eqn:H;
    [|unfold join in H; rewrite Hov in H; discriminate].
  exists joined. split; [reflexivity|].
  pose proof (fun k => join_right_count _ _ _ k H) as Hcount.
  apply join_Ok in H as [_ [_ Hrows]].
  assert (forall k m, In (k, m) (rows joined) ->
            exists t, In (k, t) (rows chip_df) /\
              ((~ In k (index islands) /\ m = t) \/
               (exists i, In (k, i) (rows islands) /\ m = i ∪ t))) as Hrow.
  { intros k m Hin. rewrite Hrows in Hin. apply in_flat_map in Hin as [kr [Hkr Hin]].
    apply pair_rows_In in Hin as [-> Hin]. exists (snd kr).
    split; [destruct kr; exact Hkr | exact Hin]. }
  split; [|split].
  - intros k. rewrite !count_key_pos, Hcount. nia.
  - intros k m Hin Hno. destruct (Hrow _ _ Hin) as [t [Ht [[_ ->]|[i [Hi _]]]]].
    + exact Ht.
    + exfalso. apply Hno. apply in_map_iff. exists (k, i). auto.
  - intros k m Hin Hyes. destruct (Hrow _ _ Hin) as [t [Ht [[Hno _]|[i [Hi ->]]]]].
    + contradiction.
    + eauto.
Qed.

Lemma treatment_join_index_witness :
  overlap (columns islands1)
          (columns (get_chromosome_df "chr1" (put_dfs_in_chromosome_dict [t1]))) = false /\
  exists joined,
    treatment_join "chr1" (put_dfs_in_chromosome_dict [t1]) islands1 = Ok joined /\
    (forall k, In k (index joined) <->
               In k (index (get_chromosome_df "chr1" (put_dfs_in_chromosome_dict [t1])))).
Proof.
  split; [reflexivity|].
  destruct (treatment_join_index "chr1" (put_dfs_in_chromosome_dict [t1]) islands1 eq_refl)
    as [joined [H [Hk _]]].
  exists joined. split; [exact H | exact Hk].
Defined.

(** C1 as stated fails: with treatment rows at the bins 100 and 200 of chr1
    and island bins 50, 150 and 250, the joined table has the keys of the
    treatment rows and none of the island bins. *)
Lemma treatment_join_counterexample :
  enriched_bins [mkRegion "chr1" 50 250 0.01%float] args0 = Ok islands1 /\
  exists joined,
    treatment_join "chr1" (put_dfs_in_chromosome_dict [t1]) islands1 = Ok joined /\
    index joined = [("chr1", 100); ("chr1", 200)] /\
    ~ (forall k, In k (index joined) <->
                 In k (index islands1) /\ fst k = "chr1").
Proof.
  split; [vm_compute; reflexivity|].
  exists {| columns := ["Island"; "t.bed"]; rows := rows t1 |}.
  split; [vm_compute; reflexivity|]. split; [reflexivity|].
  intros H. destruct (H ("chr1", 50)) as [_ H']. simpl in H'.
  destruct H' as [[=]|[[=]|[]]]; auto.
Qed.

Lemma _create_matrixes_count (chromosome : string)
    (chip input : gmap string DataFrame) (islands dfm : DataFrame) (k : key) :
  _create_matrixes chromosome chip input islands = Ok dfm ->
  let treatment := count_key k (index (get_chromosome_df chromosome chip)) in
  let control := count_key k (index (get_chromosome_df chromosome input)) in
  count_key k (index dfm)
  = (treatment * Nat.max 1 (count_key k (index islands)) * Nat.max 1 control
     + if (treatment =? 0)%nat then control else 0)%nat.
Proof.
  intros Hm. unfold _create_matrixes in Hm.
  inv_bind Hm. inv_bind Hm. injection Hm as <-.
  rewrite fillna_index, (join_outer_count _ _ _ _ Ha0), (join_right_count _ _ _ _ Ha).
  simpl. f_equal.
  destruct (has_key k a) eqn:E.
  - apply has_key_In, count_key_pos in E.
    rewrite (join_right_count _ _ _ _ Ha) in E.
    destruct (Nat.eqb_spec (count_key k (index (get_chromosome_df chromosome chip))) 0);
      [nia | reflexivity].
  - destruct (Nat.eqb_spec (count_key k (index (get_chromosome_df chromosome chip))) 0);
      [reflexivity|].
    assert (has_key k a = true) as E'; [|congruence].
    apply has_key_In, count_key_pos. rewrite (join_right_count _ _ _ _ Ha). nia.
Qed.

Lemma _create_matrixes_keys (chromosome : string)
    (chip input : gmap string DataFrame) (islands dfm : DataFrame) (k : key) :
  _create_matrixes chromosome chip input islands = Ok dfm ->
  In k (index dfm) <->
  In k (index (get_chromosome_df chromosome chip)) \/
  In k (index (get_chromosome_df chromosome input)).
Proof.
  intros Hm. rewrite !count_key_pos, (_create_matrixes_count _ _ _ _ _ k Hm).
  simpl. destruct (Nat.eqb_spec (count_key k (index (get_chromosome_df chromosome chip))) 0);
    nia.
Qed.

Lemma yields_generates (args : Args.t) (k : key) (row : Region) :
  0 < Args.window_size args ->
  yields args k row = true <-> below_cutoff args row = true /\ generates args row k.
Proof.
  intros Hw. unfold yields, generates.
  rewrite !andb_true_iff, String.eqb_eq, existsb_exists.
  rewrite <- (range_list_In _ _ _ _ Hw). split.
  - intros [[Hb Hc] [b [Hin E]]]. apply Z.eqb_eq in E. subst b. auto.
  - intros [Hb [Hc Hin]]. repeat split; auto. exists (snd k).
    split; [exact Hin | apply Z.eqb_refl].
Qed.

Lemma count_key_island_pairs (args : Args.t) (df : list Region) (k : key) :
  0 < Args.window_size args ->
  count_key k (island_pairs (Args.window_size args)
                 (List.filter (below_cutoff args) df))
  = length (List.filter (yields args k) df).
Proof.
  intros Hw. induction df as [|row df IH]; [reflexivity|].
  simpl. unfold yields at 1. destruct (below_cutoff args row); simpl.
  - rewrite count_key_app, IH. destruct k as [c b].
    rewrite (count_key_NoDup_pair _ _ _ _ (range_list_NoDup _ _ _ Hw)). simpl.
    destruct (_ && _); reflexivity.
  - exact IH.
Qed.

(** C6 (amended): the index keeps one entry for every surviving region and
    bin, so a (Chromosome, bin) pair occurs as often as there are surviving
    regions that generate it.  In the merged matrix a treatment row is
    repeated once for each index entry and each control row of its key;
    control rows whose key has no treatment row are kept once each. *)
Theorem island_index_multiplicity (df : list Region) (args : Args.t)
    (islands : DataFrame) :
  0 < Args.window_size args ->
  enriched_bins df args = Ok islands ->
  (forall k, count_key k (index islands) = length (List.filter (yields args k) df)) /\
  (forall chromosome chip input dfm k,
     _create_matrixes chromosome chip input islands = Ok dfm ->
     let treatment := count_key k (index (get_chromosome_df chromosome chip)) in
     let control := count_key k (index (get_chromosome_df chromosome input)) in
     count_key k (index dfm)
     = (treatment * Nat.max 1 (count_key k (index islands)) * Nat.max 1 control
        + if (treatment =? 0)%nat then control else 0)%nat).
Proof.
  intros Hw H. split.
  - intros k. rewrite <- (count_key_island_pairs _ _ _ Hw).
    assert (Args.window_size args <> 0) as Hne by lia.
    rewrite (enriched_bins_Ok_index _ _ _ Hne H). reflexivity.
  - intros chromosome chip input dfm k Hm. apply _create_matrixes_count. exact Hm.
Qed.

Lemma island_index_multiplicity_witness :
  0 < Args.window_size args0 /\
  enriched_bins [mkRegion "chr1" 50 250 0.01%float] args0 = Ok islands1 /\
  forall k, count_key k (index islands1)
            = length (List.filter (yields args0 k) [mkRegion "chr1" 50 250 0.01%float]).
Proof.
  assert (enriched_bins [mkRegion "chr1" 50 250 0.01%float] args0 = Ok islands1) as H
    by (vm_compute; reflexivity).
  split; [reflexivity|]. split; [exact H|].
  exact (proj1 (island_index_multiplicity _ args0 _ eq_refl H)).
Defined.

(** C6 as stated fails: two surviving regions that generate the same bins
    leave two index entries for each, and the merged matrix has two rows for
    the key (chr1, 100). *)
Lemma island_index_counterexample :
  exists islands dfm,
    enriched_bins [region0; region0] args0 = Ok islands /\
    create_matrixes [t1] [c1] [region0; region0] args0 = Ok [dfm] /\
    index islands = [("chr1", 100); ("chr1", 200); ("chr1", 100); ("chr1", 200)] /\
    count_key ("chr1", 100) (index dfm) = 2%nat /\
    ~ (count_key ("chr1", 100%Z) (index islands) <= 1)%nat /\
    ~ (count_key ("chr1", 100%Z) (index dfm) <= 1)%nat.
Proof.
  destruct (enriched_bins [region0; region0] args0) as [islands|] eqn:Ei;
    [|vm_compute in Ei; discriminate].
  destruct (create_matrixes [t1] [c1] [region0; region0] args0) as [[|dfm [|]]|] eqn:Em;
    try (vm_compute in Em; discriminate).
  exists islands, dfm.
  assert (index <$> Ok islands = Ok [("chr1", 100); ("chr1", 200); ("chr1", 100); ("chr1", 200)])
    as Hi by (rewrite <- Ei; vm_compute; reflexivity).
  assert ((fun l => map index l) <$> Ok [dfm]
          = Ok [[("chr1", 100); ("chr1", 100); ("chr1", 200); ("chr1", 200)]])
    as Hm by (rewrite <- Em; vm_compute; reflexivity).
  injection Hi as Hi. injection Hm as Hm.
  rewrite Hi, Hm. repeat split; try reflexivity; vm_compute; lia.
Qed.

(** ** The partition and the order of the chromosomes *)

Example natsorted_chromosomes :
  natsorted ["chr1"; "chr10"; "chr2"; "chrX"] = ["chr1"; "chr2"; "chr10"; "chrX"].
Proof. reflexivity. Qed.

(** The treatment rows (chr1, 100, 5) and (chr1, 200, 3), the control row
    (chr1, 100, 1) and the region chr1:50-250: the matrix has the two
    treatment bins; the island bins 50, 150 and 250 meet no treatment row. *)
Example create_matrixes_chr1 :
  create_matrixes [t1] [c1] [mkRegion "chr1" 50 250 0.01%float] args0 = Ok [m1].
Proof. vm_compute. reflexivity. Qed.

Lemma insert_sorted_In (x y : string) (l : list string) :
  In x (insert_sorted y l) <-> x = y \/ In x l.
Proof.
  induction l as [|z l IH]; simpl; [intuition congruence|].
  destruct (natsort_leb y z); simpl; [intuition congruence|].
  rewrite IH. intuition congruence.
Qed.

Lemma natsorted_In (x : string) (l : list string) :
  In x (natsorted l) <-> In x l.
Proof.
  induction l as [|y l IH]; simpl; [tauto|].
  rewrite insert_sorted_In, IH. intuition congruence.
Qed.

Lemma all_chromosomes_In (chip input : gmap string DataFrame) (c : string) :
  In c (all_chromosomes chip input) <-> is_Some (chip !! c) \/ is_Some (input !! c).
Proof.
  unfold all_chromosomes. rewrite natsorted_In, <- list_elem_of_In, elem_of_elements,
    elem_of_union, !elem_of_dom. reflexivity.
Qed.

(** A table filed under a chromosome is one of the tables given, and its
    first row is on that chromosome. *)
Lemma put_dfs_in_chromosome_dict_lookup (dfs : list DataFrame) (c : string)
    (df : DataFrame) :
  put_dfs_in_chromosome_dict dfs !! c = Some df ->
  In df dfs /\ exists k m rest, rows df = (k, m) :: rest /\ fst k = c.
Proof.
  unfold put_dfs_in_chromosome_dict.
  assert (forall (l : list DataFrame) (acc : gmap string DataFrame),
    (forall c df, acc !! c = Some df ->
       In df dfs /\ exists k m rest, rows df = (k, m) :: rest /\ fst k = c) ->
    (forall df, In df l -> In df dfs) ->
    forall c df,
      fold_left (fun chromosome_dict df =>
                   match rows df with
                   | [] => chromosome_dict
                   | (k, _) :: _ => <[fst k := df]> chromosome_dict
                   end) l acc !! c = Some df ->
      In df dfs /\ exists k m rest, rows df = (k, m) :: rest /\ fst k = c) as Hgen.
  { induction l as [|d l IH]; simpl; intros acc Hacc Hl c' df' H; [eauto|].
    apply (IH _) in H; [exact H| |auto].
    intros c2 df2 H2. destruct (rows d) as [|[k m] rest] eqn:E; [eauto|].
    destruct (decide (fst k = c2)) as [<-|Hne].
    - rewrite lookup_insert_eq in H2. injection H2 as <-. split; [auto|]. eauto.
    - rewrite lookup_insert_ne in H2 by exact Hne. eauto. }
  apply Hgen; [|auto]. intros c' df' H. rewrite lookup_empty in H. discriminate.
Qed.

Lemma get_chromosome_df_keys (dfs : list DataFrame) (c : string) (k : key) :
  (forall t, In t dfs -> single_chromosome t) ->
  In k (index (get_chromosome_df c (put_dfs_in_chromosome_dict dfs))) ->
  fst k = c /\ is_Some (put_dfs_in_chromosome_dict dfs !! c).
Proof.
  intros Hs. unfold get_chromosome_df.
  destruct (put_dfs_in_chromosome_dict dfs !! c) as [df|] eqn:E; [|intros []].
  intros Hk. split; [|eauto].
  apply put_dfs_in_chromosome_dict_lookup in E as [Hin [k0 [m [rest [Hr <-]]]]].
  apply (Hs _ Hin); [exact Hk|]. unfold index. rewrite Hr. left. reflexivity.
Qed.

(** C2 (amended): the chromosomes that are worked on are those of the two
    partitions only.  For tables of one chromosome each, a chromosome that is
    in neither partition has no row in any of the merged matrixes, whether
    the island index has bins on it or not. *)
Theorem absent_chromosome_no_rows (chip input : list DataFrame) (df : list Region)
    (args : Args.t) (dfms : list DataFrame) (c : string) :
  (forall t, In t (chip ++ input) -> single_chromosome t) ->
  put_dfs_in_chromosome_dict chip !! c = None ->
  put_dfs_in_chromosome_dict input !! c = None ->
  create_matrixes chip input df args = Ok dfms ->
  forall dfm k, In dfm dfms -> In k (index dfm) -> fst k <> c.
Proof.
  intros Hs Hc Hi H dfm k Hdfm Hk Heq. unfold create_matrixes in H.
  inv_bind H. destruct (mapM_Ok_In _ _ _ H _ Hdfm) as [ch [_ Hm]].
  apply (_create_matrixes_keys _ _ _ _ _ k Hm) in Hk.
  destruct Hk as [Hk|Hk]; apply get_chromosome_df_keys in Hk.
  - destruct Hk as [E [x Hx]]. congruence.
  - intros t Ht. apply Hs, in_or_app. auto.
  - destruct Hk as [E [x Hx]]. congruence.
  - intros t Ht. apply Hs, in_or_app. auto.
Qed.

Lemma absent_chromosome_no_rows_witness :
  create_matrixes [t1] [c1] [region3] args0 = Ok [m1] /\
  forall dfm k, In dfm [m1] -> In k (index dfm) -> fst k <> "chr3".
Proof.
  assert (create_matrixes [t1] [c1] [region3] args0 = Ok [m1]) as H
    by (vm_compute; reflexivity).
  split; [exact H|].
  apply (absent_chromosome_no_rows [t1] [c1] [region3] args0 [m1] "chr3");
    [|reflexivity|reflexivity|exact H].
  intros t [<-|[<-|[]]] k k' Hk Hk'; simpl in Hk, Hk';
    intuition (subst; reflexivity).
Defined.

(** C2 as stated fails: chr3 is in neither partition and has the island
    bins 100 and 200, yet the only merged matrix is the one of chr1 and has no
    row for (chr3, 100). *)
Lemma absent_chromosome_counterexample :
  put_dfs_in_chromosome_dict [t1] !! "chr3" = None /\
  put_dfs_in_chromosome_dict [c1] !! "chr3" = None /\
  index <$> enriched_bins [region3] args0 = Ok [("chr3", 100); ("chr3", 200)] /\
  create_matrixes [t1] [c1] [region3] args0 = Ok [m1] /\
  ~ (exists dfm, In dfm [m1] /\ In ("chr3", 100) (index dfm)).
Proof.
  repeat split; try (vm_compute; reflexivity).
  intros [dfm [[<-|[]] Hk]]. simpl in Hk.
  destruct Hk as [[=]|[[=]|[]]].
Qed.

(** ** Sums and tracks *)

Lemma filter_map_comm {A B} (f : B -> bool) (g : A -> B) (l : list A) :
  List.filter f (map g l) = map g (List.filter (fun x => f (g x)) l).
Proof.
  induction l as [|x l IH]; simpl; [reflexivity|].
  destruct (f (g x)); simpl; rewrite IH; reflexivity.
Qed.

Lemma forallb_mem (names labels : list string) :
  forallb (fun name => mem name labels) names = true <->
  forall name, In name names -> In name labels.
Proof.
  rewrite forallb_forall. split; intros H name Hn; apply mem_In; auto.
Qed.

Lemma sum_track_Ok (matrix : DataFrame) (names : list string) :
  (forall name, In name names -> In name (columns matrix)) ->
  sum_track matrix names = Ok (sum_lines matrix names).
Proof.
  intros H. apply forallb_mem in H. unfold sum_track, getitems. rewrite H.
  simpl. unfold sum_rows, positive_only. simpl. rewrite filter_map_comm. simpl.
  unfold astype_int. rewrite (proj2 (forallb_forall _ _)).
  - simpl. unfold series_lines, sum_lines. rewrite map_map. reflexivity.
  - intros kv Hkv. apply in_map_iff in Hkv as [kr [<- _]]. reflexivity.
Qed.

Lemma sum_lines_In (matrix : DataFrame) (names : list string) (l : line) :
  In l (sum_lines matrix names) <->
  exists k m, In (k, m) (rows matrix) /\ 0 < row_sum names m /\
              l = Data k [Int (row_sum names m)].
Proof.
  unfold sum_lines. rewrite in_map_iff. split.
  - intros [[k m] [<- H]]. apply filter_In in H as [H Hp].
    apply Z.ltb_lt in Hp. eauto.
  - intros [k [m [H [Hp ->]]]]. exists (k, m). split; [reflexivity|].
    apply filter_In. split; [exact H | apply Z.ltb_lt; exact Hp].
Qed.





(** C10: a missing value adds nothing to the sum of its row.  A row whose
    selected columns are all missing has the sum 0, so a key with such rows
    only has no line in the track; no line of the track holds a token such
    as "NA" in place of a number. *)
Theorem missing_values_sum_to_zero (matrix : DataFrame) (names : list string) :
  (forall name, In name names -> In name (columns matrix)) ->
  (forall m c, m !! c = None -> row_sum (c :: names) m = row_sum names m) /\
  (forall m, (forall c, In c names -> m !! c = None) -> row_sum names m = 0) /\
  exists ls,
    sum_track matrix names = Ok ls /\
    (forall k, (forall m c, In (k, m) (rows matrix) -> In c names -> m !! c = None) ->
               forall fields, ~ In (Data k fields) ls) /\
    (forall k fields s, In (Data k fields) ls -> ~ In (Token s) fields).
Proof.
  intros H.
  assert (forall m, (forall c, In c names -> m !! c = None) -> row_sum names m = 0)
    as Hzero.
  { intros m. clear H. induction names as [|c names IH]; simpl; intros Hm; [reflexivity|].
    rewrite (Hm c) by auto. simpl. apply IH. auto. }
  split; [|split; [exact Hzero|]].
  - intros m c Hc. simpl. rewrite Hc. reflexivity.
  - exists (sum_lines matrix names). split; [apply sum_track_Ok; exact H|]. split.
    + intros k Hk fields Hin.
      apply sum_lines_In in Hin as [k' [m [Hr [Hp [= <- _]]]]].
      rewrite Hzero in Hp by eauto. lia.
    + intros k fields s Hin.
      apply sum_lines_In in Hin as [k' [m [_ [_ [= _ ->]]]]].
      intros [[=]|[]].
Qed.

Lemma missing_values_sum_to_zero_witness :
  (create_matrixes [t1] [c2] [region0] args0 ≫= concat) ≫= drop "Island" = Ok m2 /\
  (forall name, In name ["t.bed"] -> In name (columns m2)) /\
  exists ls,
    sum_track m2 ["t.bed"] = Ok ls /\
    (forall k, (forall m c, In (k, m) (rows m2) -> In c ["t.bed"] -> m !! c = None) ->
               forall fields, ~ In (Data k fields) ls).
Proof.
  assert (forall name, In name ["t.bed"] -> In name (columns m2)) as H
    by (intros name [<-|[]]; simpl; auto).
  split; [vm_compute; reflexivity|]. split; [exact H|].
  destruct (missing_values_sum_to_zero m2 ["t.bed"] H) as [_ [_ [ls [Hls [Hk _]]]]].
  exists ls. split; [exact Hls | exact Hk].
Defined.

(** ** Tracks of single files *)

Lemma track_lines_Ok (matrix : DataFrame) (name : string) :
  In name (columns matrix) ->
  track_lines matrix name
  = Ok (series_lines "NA"
          (dropna (except_zero (map (fun kr => (fst kr, snd kr !! name))
                                    (rows matrix))))).
Proof.
  intros H. apply mem_In in H. unfold track_lines, getitem. rewrite H. simpl.
  unfold astype_int. rewrite (proj2 (forallb_forall _ _)); [reflexivity|].
  intros kv Hkv. apply filter_In in Hkv as [_ Hkv]. exact Hkv.
Qed.

Lemma nonzero_lines_In (matrix : DataFrame) (name : string) (l : line) :
  In l (series_lines "NA"
          (dropna (except_zero (map (fun kr => (fst kr, snd kr !! name))
                                    (rows matrix))))) <->
  exists k m z, In (k, m) (rows matrix) /\ m !! name = Some z /\ z <> 0 /\
                l = Data k [Int z].
Proof.
  unfold series_lines, dropna, except_zero. rewrite in_map_iff. split.
  - intros [[k v] [<- H]]. apply filter_In in H as [H Hv].
    apply filter_In in H as [H Hz]. apply in_map_iff in H as [[k' m] [[= <- <-] H]].
    simpl in *. destruct (m !! name) as [z|] eqn:E; [|discriminate].
    exists k', m, z. apply negb_true_iff, Z.eqb_neq in Hz. auto.
  - intros [k [m [z [H [E [Hz ->]]]]]]. exists (k, Some z). split; [reflexivity|].
    apply filter_In. split; [|reflexivity]. apply filter_In. split.
    + apply in_map_iff. exists (k, m). simpl. rewrite E. auto.
    + simpl. apply negb_true_iff, Z.eqb_neq. exact Hz.
Qed.

(** C4 (amended): the track of a file has a line for every row of the matrix
    whose value in the column of the file is there and is not 0, and no other
    line.  It has no line with the value 0, and none for a missing value: such
    rows are left out, no "NA" is written. *)
Theorem individual_bedgraph_lines (matrix : DataFrame) (name outfolder : string)
    (fs : files) :
  In name (columns matrix) ->
  exists fs' ls,
    _individual_bedgraphs matrix name outfolder fs = Ok fs' /\
    fs' !! path_join outfolder (track_base name +:+ ".bedgraph") = Some ls /\
    (forall l, In l ls <->
       exists k m z, In (k, m) (rows matrix) /\ m !! name = Some z /\ z <> 0 /\
                     l = Data k [Int z]) /\
    (forall k fields, In (Data k fields) ls ->
       ~ In (Int 0) fields /\ forall s, ~ In (Token s) fields).
Proof.
  intros H. unfold _individual_bedgraphs. rewrite (track_lines_Ok _ _ H). simpl.
  eexists _, _. split; [reflexivity|]. split; [apply lookup_insert_eq|].
  split; [apply nonzero_lines_In|].
  intros k fields Hin. apply nonzero_lines_In in Hin as [k' [m [z [_ [_ [Hz [= _ ->]]]]]]].
  split; [intros [[=]|[]]; congruence | intros s [[=]|[]]].
Qed.

Lemma individual_bedgraph_lines_witness :
  In "c.bed" (columns m2) /\
  exists fs' ls,
    _individual_bedgraphs m2 "c.bed" "ibg" ∅ = Ok fs' /\
    fs' !! path_join "ibg" (track_base "c.bed" +:+ ".bedgraph") = Some ls /\
    (forall l, In l ls <->
       exists k m z, In (k, m) (rows m2) /\ m !! "c.bed" = Some z /\ z <> 0 /\
                     l = Data k [Int z]) /\
    (forall k fields, In (Data k fields) ls ->
       ~ In (Int 0) fields /\ forall s, ~ In (Token s) fields).
Proof.
  assert (In "c.bed" (columns m2)) as H by (simpl; auto).
  split; [exact H|]. exact (individual_bedgraph_lines m2 "c.bed" "ibg" ∅ H).
Defined.

(** C4 as stated fails: with the treatment on chr1 and the control on chr2,
    the control column of the matrix is missing on the two rows of chr1, and
    the track of the control file has no "NA" line for them. *)
Lemma individual_bedgraph_counterexample :
  (create_matrixes [t1] [c2] [region0] args0 ≫= concat) ≫= drop "Island" = Ok m2 /\
  getitem m2 "c.bed"
  = Ok [(("chr1", 100), None); (("chr1", 200), None); (("chr2", 100), Some 1)] /\
  track_lines m2 "c.bed" = Ok [Data ("chr2", 100) [Int 1]] /\
  ~ (forall k, In (Data k [Token "NA"]) [Data ("chr2", 100) [Int 1]] <->
               In (k, None) [(("chr1", 100), None); (("chr1", 200), None);
                             (("chr2", 100), Some 1)]).
Proof.
  repeat split; try (vm_compute; reflexivity).
  intros H. destruct (H ("chr1", 100)) as [_ H']. simpl in H'.
  destruct H' as [[=]|[]]. auto.
Qed.

(** ** The matrix file *)


Lemma overlap_false (l1 l2 : list string) (c : string) :
  overlap l1 l2 = false -> In c l1 -> ~ In c l2.
Proof.
  unfold overlap. intros H H1 H2.
  assert (existsb (fun c => mem c l2) l1 = true) as E; [|congruence].
  apply existsb_exists. exists c. split; [exact H1 | apply mem_In; exact H2].
Qed.


Lemma frame_astype_int_Ok (df df' : DataFrame) :
  frame_astype_int df = Ok df' -> df' = df.
Proof. unfold frame_astype_int. destruct (forallb _ _); congruence. Qed.



Lemma fill_row_lookup (v : Z) (labels : list string) (m : cells) (c : string) :
  In c labels -> is_Some (fill_row v labels m !! c).
Proof.
  induction labels as [|c' labels IH]; simpl; [intros []|].
  intros Hin. destruct (fill_row v labels m !! c') as [z|] eqn:E.
  - destruct Hin as [->|Hin]; [eauto | auto].
  - destruct (decide (c' = c)) as [->|Hne].
    + rewrite lookup_insert_eq. eauto.
    + rewrite lookup_insert_ne by exact Hne.
      destruct Hin as [?|Hin]; [congruence | auto].
Qed.







(** ** Names of the tracks *)

Lemma split_nonempty (sep : ascii) (s : string) : split sep s <> [].
Proof.
  destruct s as [|a s]; simpl; [discriminate|].
  destruct (Ascii.eqb a sep); [discriminate|].
  destruct (split sep s); discriminate.
Qed.

Lemma split_app (sep : ascii) (a b : string) :
  split sep (a +:+ String sep b) = (split sep a ++ split sep b)%list.
Proof.
  induction a as [|c a IH]; simpl.
  - rewrite Ascii.eqb_refl. reflexivity.
  - destruct (Ascii.eqb c sep); [rewrite IH; reflexivity|].
    rewrite IH. pose proof (split_nonempty sep a) as Hne.
    destruct (split sep a) as [|h t]; [congruence | reflexivity].
Qed.

Lemma split_free (sep : ascii) (s : string) :
  free sep s = true -> split sep s = [s].
Proof.
  induction s as [|a s IH]; simpl; [reflexivity|].
  intros H. apply andb_true_iff in H as [Ha Hs]. apply negb_true_iff in Ha.
  rewrite Ha, (IH Hs). reflexivity.
Qed.




Lemma basename_free (p : string) : free "/" p = true -> basename p = p.
Proof. intros H. unfold basename. rewrite (split_free _ _ H). reflexivity. Qed.

Lemma basename_app (dir file : string) :
  free "/" file = true -> basename (dir +:+ String "/" file) = file.
Proof.
  intros H. unfold basename. rewrite split_app, (split_free _ _ H).
  apply last_last.
Qed.




(** * Further properties of the code *)

(** ** The partition by chromosome *)

Lemma file_table_lookup (d : gmap string DataFrame) (df : DataFrame) (c : string) :
  file_table d df !! c
  = if decide (first_chromosome df = Some c) then Some df else d !! c.
Proof.
  unfold file_table, first_chromosome. destruct (rows df) as [|[k m] rest].
  - destruct (decide (None = Some c)); [discriminate | reflexivity].
  - destruct (decide (Some (fst k) = Some c)) as [[= ->]|Hne].
    + apply lookup_insert_eq.
    + apply lookup_insert_ne. congruence.
Qed.

Lemma fold_file_table_other (l : list DataFrame) (d : gmap string DataFrame)
    (c : string) :
  (forall df, In df l -> first_chromosome df <> Some c) ->
  fold_left file_table l d !! c = d !! c.
Proof.
  revert d. induction l as [|df l IH]; simpl; intros d H; [reflexivity|].
  rewrite IH by auto. rewrite file_table_lookup.
  destruct (decide (first_chromosome df = Some c)) as [E|_]; [|reflexivity].
  exfalso. apply (H df); auto.
Qed.

Lemma fold_file_table_keys (l : list DataFrame) (d : gmap string DataFrame)
    (c : string) :
  is_Some (fold_left file_table l d !! c) <->
  is_Some (d !! c) \/ exists df, In df l /\ first_chromosome df = Some c.
Proof.
  revert d. induction l as [|df l IH]; simpl; intros d.
  - split; [auto | intros [H|[df [[] _]]]; exact H].
  - rewrite IH, file_table_lookup.
    destruct (decide (first_chromosome df = Some c)) as [E|Hne].
    + split; [|eauto]. intros _. right. eauto.
    + split.
      * intros [H|[df' [H1 H2]]]; [auto | right; eauto].
      * intros [H|[df' [[<-|H1] H2]]]; [auto | contradiction | right; eauto].
Qed.

Lemma fold_file_table_skip (l : list DataFrame) (d : gmap string DataFrame) :
  fold_left file_table (List.filter (fun df => negb (match rows df with
                                                     | [] => true
                                                     | _ => false
                                                     end)) l) d
  = fold_left file_table l d.
Proof.
  revert d. induction l as [|df l IH]; simpl; intros d; [reflexivity|].
  destruct (rows df) as [|[k m] rest] eqn:E; simpl.
  - assert (file_table d df = d) as -> by (unfold file_table; rewrite E; reflexivity).
    apply IH.
  - apply IH.
Qed.

(** X1: the partition files a table under the Chromosome of its first row.
    Its keys are the first chromosomes of the tables that have rows; tables
    without rows are passed over, so that leaving them out of the input
    gives the same partition.  [put_dfs_in_dict] builds the same mapping. *)
Theorem partition_keys (dfs : list DataFrame) :
  (forall c, is_Some (put_dfs_in_chromosome_dict dfs !! c) <->
             exists df, In df dfs /\ first_chromosome df = Some c) /\
  put_dfs_in_chromosome_dict
    (List.filter (fun df => negb (match rows df with [] => true | _ => false end)) dfs)
  = put_dfs_in_chromosome_dict dfs /\
  put_dfs_in_dict dfs = put_dfs_in_chromosome_dict dfs.
Proof.
  split; [|split].
  - intros c. change (put_dfs_in_chromosome_dict dfs) with (fold_left file_table dfs ∅).
    rewrite fold_file_table_keys, lookup_empty. split.
    + intros [[x [=]]|H]; exact H.
    + auto.
  - apply (fold_file_table_skip dfs ∅).
  - reflexivity.
Qed.

(** X2: when several tables start on the same chromosome, the last one is
    the table of that chromosome; the earlier ones are dropped without an
    error. *)
Theorem partition_last_wins (dfs1 dfs2 : list DataFrame) (df : DataFrame) (c : string) :
  first_chromosome df = Some c ->
  (forall df', In df' dfs2 -> first_chromosome df' <> Some c) ->
  put_dfs_in_chromosome_dict (dfs1 ++ df :: dfs2) !! c = Some df /\
  put_dfs_in_dict (dfs1 ++ df :: dfs2) !! c = Some df /\
  get_chromosome_df c (put_dfs_in_chromosome_dict (dfs1 ++ df :: dfs2)) = df.
Proof.
  intros Hc H2.
  assert (put_dfs_in_chromosome_dict (dfs1 ++ df :: dfs2) !! c = Some df) as E.
  { change (fold_left file_table (dfs1 ++ df :: dfs2) ∅ !! c = Some df).
    rewrite fold_left_app. simpl. rewrite (fold_file_table_other _ _ _ H2).
    rewrite file_table_lookup. destruct (decide (first_chromosome df = Some c));
      [reflexivity | contradiction]. }
  split; [exact E|]. split; [exact E|].
  unfold get_chromosome_df. rewrite E. reflexivity.
Qed.

Lemma partition_last_wins_witness :
  first_chromosome t1' = Some "chr1" /\
  (forall df', In df' [c2; t_empty] -> first_chromosome df' <> Some "chr1") /\
  put_dfs_in_chromosome_dict ([t1] ++ t1' :: [c2; t_empty]) !! "chr1" = Some t1'.
Proof.
  assert (forall df', In df' [c2; t_empty] -> first_chromosome df' <> Some "chr1") as H
    by (intros df' [<-|[<-|[]]]; discriminate).
  split; [reflexivity|]. split; [exact H|].
  exact (proj1 (partition_last_wins [t1] [c2; t_empty] t1' "chr1" eq_refl H)).
Defined.

(** ** The order of the chromosomes *)

Lemma chunk_compare_antisym (c1 c2 : chunk) :
  chunk_compare c2 c1 = CompOpp (chunk_compare c1 c2).
Proof.
  destruct c1, c2; simpl; try reflexivity.
  - apply String.compare_antisym.
  - apply N.compare_antisym.
Qed.

Lemma key_compare_antisym (k1 k2 : list chunk) :
  key_compare k2 k1 = CompOpp (key_compare k1 k2).
Proof.
  revert k2. induction k1 as [|c1 k1 IH]; intros [|c2 k2]; simpl; try reflexivity.
  rewrite (chunk_compare_antisym c1 c2).
  destruct (chunk_compare c1 c2); simpl; [apply IH | reflexivity | reflexivity].
Qed.

Lemma natsort_leb_total (x y : string) :
  natsort_leb x y = false -> natsort_leb y x = true.
Proof.
  unfold natsort_leb. rewrite (key_compare_antisym (natsort_key x) (natsort_key y)).
  destruct (key_compare (natsort_key x) (natsort_key y)); simpl; congruence.
Qed.

Lemma insert_sorted_Sorted (x : string) (l : list string) :
  Sorted (fun a b => natsort_leb a b = true) l ->
  Sorted (fun a b => natsort_leb a b = true) (insert_sorted x l).
Proof.
  induction 1 as [|y l Hl IH Hy]; simpl; [repeat constructor|].
  destruct (natsort_leb x y) eqn:E.
  - constructor; [constructor; assumption | constructor; exact E].
  - constructor; [exact IH|]. apply natsort_leb_total in E.
    destruct l as [|z l]; simpl; [constructor; exact E|].
    destruct (natsort_leb x z); constructor; [exact E|].
    inversion Hy; assumption.
Qed.

Lemma natsorted_Sorted (l : list string) :
  Sorted (fun a b => natsort_leb a b = true) (natsorted l).
Proof.
  induction l as [|x l IH]; simpl; [constructor | apply insert_sorted_Sorted, IH].
Qed.

Lemma insert_sorted_Permutation (x : string) (l : list string) :
  Permutation (insert_sorted x l) (x :: l).
Proof.
  induction l as [|y l IH]; simpl; [reflexivity|].
  destruct (natsort_leb x y); [reflexivity|].
  rewrite IH. apply perm_swap.
Qed.

Lemma natsorted_Permutation (l : list string) : Permutation (natsorted l) l.
Proof.
  induction l as [|x l IH]; simpl; [reflexivity|].
  rewrite insert_sorted_Permutation, IH. reflexivity.
Qed.

(** X3: the chromosomes that are worked on are those of the treatment and
    of the control partition, each of them once, and they come in the
    natural order of their names (text and numbers compared in turn). *)
Theorem all_chromosomes_order (chip input : gmap string DataFrame) :
  (forall c, In c (all_chromosomes chip input) <->
             is_Some (chip !! c) \/ is_Some (input !! c)) /\
  List.NoDup (all_chromosomes chip input) /\
  Sorted (fun a b => natsort_leb a b = true) (all_chromosomes chip input).
Proof.
  split; [|split].
  - intros c. unfold all_chromosomes.
    rewrite natsorted_In, <- list_elem_of_In, elem_of_elements, elem_of_union,
      !elem_of_dom. reflexivity.
  - unfold all_chromosomes. apply NoDup_ListNoDup.
    rewrite natsorted_Permutation. apply NoDup_elements.
  - apply natsorted_Sorted.
Qed.

(** ** The matrix of one chromosome *)

Lemma overlap_true (l1 l2 : list string) :
  overlap l1 l2 = true <-> exists c, In c l1 /\ In c l2.
Proof.
  unfold overlap. rewrite existsb_exists. split.
  - intros [c [H1 H2]]. apply mem_In in H2. eauto.
  - intros [c [H1 H2]]. exists c. split; [exact H1 | apply mem_In; exact H2].
Qed.



Lemma _create_matrixes_eq (chromosome : string)
    (chip input : gmap string DataFrame) (islands : DataFrame) :
  let chip_df := get_chromosome_df chromosome chip in
  let input_df := get_chromosome_df chromosome input in
  _create_matrixes chromosome chip input islands
  = if overlap (columns islands) (columns chip_df) then Raise ValueError
    else if overlap (columns islands ++ columns chip_df) (columns input_df)
         then Raise ValueError
         else Ok (fillna 0
                {| columns := ((columns islands ++ columns chip_df)
                               ++ columns input_df)%list;
                   rows :=
                     (flat_map (pair_rows (fun l r => l ∪ r) input_df)
                        (flat_map (pair_rows (fun r l => l ∪ r) islands)
                           (rows chip_df))
                      ++ List.filter
                           (fun kr =>
                              negb (existsb (key_eqb (fst kr))
                                      (map fst
                                         (flat_map (pair_rows (fun r l => l ∪ r) islands)
                                            (rows chip_df)))))
                           (rows input_df))%list |}).
Proof.
  intros chip_df input_df. unfold _create_matrixes, join.
  fold chip_df. fold input_df.
  destruct (overlap (columns islands) (columns chip_df)); [reflexivity|]. simpl.
  destruct (overlap _ (columns input_df)); reflexivity.
Qed.

(** X4: the matrix of a chromosome is built unless two of the three tables
    share a column label, and a shared label is the only error, a
    ValueError.  The matrix has the Island column, the treatment columns and
    the control columns, in this order, and no missing value is left in
    it. *)
Theorem _create_matrixes_outcome (chromosome : string)
    (chip input : gmap string DataFrame) (islands : DataFrame) :
  let chip_df := get_chromosome_df chromosome chip in
  let input_df := get_chromosome_df chromosome input in
  match _create_matrixes chromosome chip input islands with
  | Ok dfm =>
      columns dfm
      = (columns islands ++ columns chip_df ++ columns input_df)%list /\
      (forall k m c, In (k, m) (rows dfm) -> In c (columns dfm) -> is_Some (m !! c)) /\
      (forall c, In c (columns islands) -> ~ In c (columns chip_df)) /\
      (forall c, In c (columns islands) \/ In c (columns chip_df) ->
                 ~ In c (columns input_df))
  | Raise e =>
      e = ValueError /\
      exists c, (In c (columns islands) /\ In c (columns chip_df)) \/
                ((In c (columns islands) \/ In c (columns chip_df)) /\
                 In c (columns input_df))
  end.
Proof.
  intros chip_df input_df.
  pose proof (_create_matrixes_eq chromosome chip input islands) as E.
  simpl in E. fold chip_df in E. fold input_df in E. rewrite E. clear E.
  destruct (overlap (columns islands) (columns chip_df)) eqn:O1.
  { split; [reflexivity|]. apply overlap_true in O1 as [c Hc]. eauto. }
  destruct (overlap (columns islands ++ columns chip_df) (columns input_df)) eqn:O2.
  { split; [reflexivity|]. apply overlap_true in O2 as [c [Hc Hi]].
    exists c. right. split; [apply in_app_or; exact Hc | exact Hi]. }
  split; [simpl; rewrite <- app_assoc; reflexivity|]. split; [|split].
  - intros k m c Hin Hc. simpl in Hin, Hc. apply in_map_iff in Hin as [kr [[= _ <-] _]].
    apply fill_row_lookup. exact Hc.
  - intros c H1. exact (overlap_false _ _ _ O1 H1).
  - intros c H1. apply (overlap_false _ _ _ O2). apply in_or_app. exact H1.
Qed.

















(** ** The stacked matrix *)

Lemma mapM_Ok_covers {A B} (f : A -> result B) (l : list A) (l' : list B) :
  mapM f l = Ok l' ->
  forall x, In x l -> exists y, In y l' /\ f x = Ok y.
Proof.
  revert l'. induction l as [|x l IH]; simpl; intros l' H x' Hx; [destruct Hx|].
  inv_bind H. inv_bind H. injection H as <-.
  destruct Hx as [<-|Hx]; [exists a; simpl; auto|].
  destruct (IH _ Ha0 _ Hx) as [y [? ?]]. exists y. simpl. auto.
Qed.

Lemma get_chromosome_df_present (d : gmap string DataFrame) (c : string) (k : key) :
  In k (index (get_chromosome_df c d)) -> is_Some (d !! c).
Proof.
  unfold get_chromosome_df. destruct (d !! c); [eauto | intros []].
Qed.

Lemma index_flat_map (l : list DataFrame) :
  map fst (flat_map rows l) = flat_map index l.
Proof.
  induction l as [|x l IH]; simpl; [reflexivity|].
  rewrite map_app, IH. reflexivity.
Qed.

(** X8: the matrix that is handed to the exporters has the keys of the
    tables that the two partitions kept, and no other key: no bin of these
    tables is lost on the way and none is made up. *)
Theorem stacked_matrix_keys (chip input : list DataFrame) (df : list Region)
    (args : Args.t) (dfms : list DataFrame) (matrix : DataFrame) :
  create_matrixes chip input df args = Ok dfms ->
  concat dfms ≫= drop "Island" = Ok matrix ->
  index matrix = flat_map index dfms /\
  forall k, In k (index matrix) <->
    exists chromosome,
      In k (index (get_chromosome_df chromosome (put_dfs_in_chromosome_dict chip))) \/
      In k (index (get_chromosome_df chromosome (put_dfs_in_chromosome_dict input))).
Proof.
  intros H Hm.
  assert (index matrix = flat_map index dfms) as Hidx.
  { inv_bind Hm. unfold concat in Ha. destruct dfms as [|d ds]; [discriminate|].
    injection Ha as <-. unfold drop in Hm. destruct (mem _ _); [|discriminate].
    injection Hm as <-. unfold index at 1. cbn [rows]. rewrite map_map. cbn [fst].
    exact (index_flat_map (d :: ds)). }
  split; [exact Hidx|]. intros k. rewrite Hidx, in_flat_map.
  unfold create_matrixes in H. inv_bind H. split.
  - intros [dfm [Hd Hk]]. destruct (mapM_Ok_In _ _ _ H _ Hd) as [ch [_ Hc]].
    exists ch. apply (_create_matrixes_keys _ _ _ _ _ k Hc). exact Hk.
  - intros [ch Hk].
    assert (In ch (all_chromosomes (put_dfs_in_chromosome_dict chip)
                     (put_dfs_in_chromosome_dict input))) as Hch.
    { apply all_chromosomes_In.
      destruct Hk as [Hk|Hk]; apply get_chromosome_df_present in Hk; auto. }
    destruct (mapM_Ok_covers _ _ _ H _ Hch) as [dfm [Hd Hc]].
    exists dfm. split; [exact Hd|].
    apply (_create_matrixes_keys _ _ _ _ _ k Hc). exact Hk.
Qed.

Lemma stacked_matrix_keys_witness :
  exists dfms,
    create_matrixes [t1] [c2] [region0] args0 = Ok dfms /\
    concat dfms ≫= drop "Island" = Ok m2 /\
    index m2 = flat_map index dfms.
Proof.
  destruct (create_matrixes [t1] [c2] [region0] args0) as [dfms|e] eqn:E;
    [|vm_compute in E; discriminate].
  assert (concat dfms ≫= drop "Island" = Ok m2) as Hm.
  { change (Ok dfms ≫= (fun l => concat l ≫= drop "Island") = Ok m2).
    rewrite <- E. vm_compute. reflexivity. }
  exists dfms. split; [reflexivity|]. split; [exact Hm|].
  exact (proj1 (stacked_matrix_keys [t1] [c2] [region0] args0 dfms m2 E Hm)).
Defined.

(** ** Writing the matrix file *)

Lemma frame_astype_int_no_missing (df : DataFrame) :
  frame_astype_int df = Ok df <-> no_missing df.
Proof.
  unfold frame_astype_int, no_missing.
  destruct (forallb _ (rows df)) eqn:E.
  - split; [|reflexivity]. intros _ k m c Hin Hc.
    rewrite forallb_forall in E. specialize (E _ Hin). unfold complete in E.
    rewrite forallb_forall in E. specialize (E _ Hc). simpl in E.
    destruct (m !! c); [eauto | discriminate].
  - split; [discriminate|]. intros H. exfalso.
    assert (forallb (fun kr => complete (columns df) (snd kr)) (rows df) = true)
      as E'; [|congruence].
    apply forallb_forall. intros [k m] Hin. apply forallb_forall. intros c Hc.
    simpl. destruct (H k m c Hin Hc) as [z ->]. reflexivity.
Qed.

Lemma frame_astype_int_Raise (df : DataFrame) (e : exn) :
  frame_astype_int df = Raise e -> e = ValueError /\ ~ no_missing df.
Proof.
  intros H. split.
  - unfold frame_astype_int in H. destruct (forallb _ _); congruence.
  - intros Hn. apply frame_astype_int_no_missing in Hn. congruence.
Qed.

Lemma frame_lines_header (df : DataFrame) :
  frame_lines "NA" true df
  = Header ("Chromosome" :: "Bin" :: columns df) :: data_lines df.
Proof. reflexivity. Qed.

Lemma print_from_append (matrixes : list DataFrame) (outpath : string) :
  forall (i : nat) (fs : files) (old : list line),
    fs !! outpath = Some old ->
    match print_from (S i) matrixes outpath fs with
    | Ok fs' =>
        (forall df, In df matrixes -> no_missing df) /\
        fs' = <[outpath := (old ++ flat_map data_lines matrixes)%list]> fs
    | Raise e =>
        e = ValueError /\ exists df, In df matrixes /\ ~ no_missing df
    end.
Proof.
  induction matrixes as [|df matrixes IH]; intros i fs old Hold.
  - simpl. split; [intros df []|]. rewrite app_nil_r. symmetry.
    apply insert_id. exact Hold.
  - cbn [print_from]. cbn [Nat.eqb].
    destruct (frame_astype_int df) as [df'|e] eqn:E.
    + apply frame_astype_int_Ok in E as E'. subst df'.
      apply frame_astype_int_no_missing in E. cbn [mbind result_bind].
      specialize (IH (S i) (write outpath Append (frame_lines "NA" false df) fs)
                    (old ++ data_lines df)%list).
      unfold write in IH at 1. rewrite lookup_insert_eq, Hold in IH.
      specialize (IH eq_refl).
      destruct (print_from (S (S i)) matrixes outpath _) as [fs'|e].
      * destruct IH as [Hall ->]. split.
        -- intros d [<-|Hd]; auto.
        -- unfold write. rewrite Hold. simpl. rewrite insert_insert_eq, <- app_assoc.
           reflexivity.
      * destruct IH as [-> [d [Hd Hn]]]. split; [reflexivity|]. exists d. simpl. auto.
    + cbn [mbind result_bind]. apply frame_astype_int_Raise in E as [-> Hn].
      split; [reflexivity|]. exists df. simpl. auto.
Qed.

(** X9: the matrix file.  When no cell of the matrixes is missing, the file
    at the path of [store_matrix] is made anew: its first line is the header
    with the columns of the first matrix, and the rows of all matrixes follow
    in order, each with the cells of the columns of its own matrix; what the
    file held before is gone, other files are left alone, and for no matrix
    at all no file is written.  A matrix with a missing cell makes the call
    raise ValueError. *)
Theorem print_matrixes_file (matrixes : list DataFrame) (args : Args.t)
    (outpath : string) (fs : files) :
  Args.store_matrix args = Some outpath ->
  match print_matrixes matrixes args fs with
  | Ok fs' =>
      (forall df, In df matrixes -> no_missing df) /\
      fs' = match matrixes with
            | [] => fs
            | df :: _ =>
                <[outpath := Header ("Chromosome" :: "Bin" :: columns df)
                             :: flat_map data_lines matrixes]> fs
            end
  | Raise e =>
      e = ValueError /\ exists df, In df matrixes /\ ~ no_missing df
  end.
Proof.
  intros Hout. unfold print_matrixes. rewrite Hout. cbn [path_of mbind result_bind].
  destruct matrixes as [|df matrixes]; [simpl; split; [intros df []|reflexivity]|].
  cbn [print_from Nat.eqb].
  destruct (frame_astype_int df) as [df'|e] eqn:E.
  - apply frame_astype_int_Ok in E as E'. subst df'.
    apply frame_astype_int_no_missing in E. cbn [mbind result_bind].
    pose proof (print_from_append matrixes outpath 0%nat
                  (write outpath Truncate (frame_lines "NA" true df) fs)
                  (frame_lines "NA" true df)) as IH.
    unfold write in IH at 1. rewrite lookup_insert_eq in IH. specialize (IH eq_refl).
    destruct (print_from 1 matrixes outpath _) as [fs'|e].
    + destruct IH as [Hall ->]. split.
      * intros d [<-|Hd]; auto.
      * unfold write. rewrite insert_insert_eq, frame_lines_header. reflexivity.
    + destruct IH as [-> [d [Hd Hn]]]. split; [reflexivity|]. exists d. simpl. auto.
  - cbn [mbind result_bind]. apply frame_astype_int_Raise in E as [-> Hn].
    split; [reflexivity|]. exists df. simpl. auto.
Qed.

Lemma print_matrixes_file_witness :
  Args.store_matrix args_store = Some "matrix.gz" /\
  print_matrixes [m3; m1] args_store {[ "matrix.gz" := [Header ["old"]] ]}
  = Ok {[ "matrix.gz" := Header ["Chromosome"; "Bin"; "Island"; "t.bed"; "c.bed"]
                         :: flat_map data_lines [m3; m1] ]}.
Proof.
  split; [reflexivity|].
  pose proof (print_matrixes_file [m3; m1] args_store "matrix.gz"
                {[ "matrix.gz" := [Header ["old"]] ]} eq_refl) as H.
  destruct (print_matrixes [m3; m1] args_store _) as [fs'|e] eqn:E;
    [|vm_compute in E; discriminate].
  destruct H as [_ ->]. rewrite insert_singleton_eq. reflexivity.
Defined.

(** ** Runs without counts *)

Lemma put_dfs_in_chromosome_dict_empty (dfs : list DataFrame) :
  (forall t, In t dfs -> rows t = []) -> put_dfs_in_chromosome_dict dfs = ∅.
Proof.
  intros H. change (fold_left file_table dfs ∅ = ∅).
  generalize (∅ : gmap string DataFrame). induction dfs as [|t dfs IH]; intros d.
  - reflexivity.
  - simpl. unfold file_table at 2. rewrite (H t) by (left; reflexivity).
    apply IH. intros t' Ht'. apply H. right. exact Ht'.
Qed.

(** X10: when no treatment and no control table has a row, there is no
    chromosome to work on and nothing to stack: [write_matrix_files] raises
    ValueError where the island index could be built, and the error of
    [enriched_bins] otherwise.  No file is written, whatever is asked for. *)
Theorem no_counts_raises (chip_merged input_merged : list DataFrame)
    (df : list Region) (args : Args.t) (fs : files) :
  (forall t, In t (chip_merged ++ input_merged) -> rows t = []) ->
  write_matrix_files chip_merged input_merged df args fs
  = match enriched_bins df args with
    | Ok _ => Raise ValueError
    | Raise e => Raise e
    end.
Proof.
  intros H. unfold write_matrix_files, create_matrixes.
  rewrite !put_dfs_in_chromosome_dict_empty
    by (intros t Ht; apply H, in_or_app; auto).
  destruct (enriched_bins df args) as [islands|e]; [|reflexivity].
  unfold all_chromosomes. rewrite dom_empty_L, (left_id_L ∅ (∪)), elements_empty.
  simpl. unfold truthy, print_matrixes.
  destruct (Args.store_matrix args) as [outpath|]; [|reflexivity].
  destruct (negb _); reflexivity.
Qed.

Lemma no_counts_raises_witness :
  (forall t, In t ([t_empty] ++ []) -> rows t = []) /\
  write_matrix_files [t_empty] [] [region0] args_store ∅ = Raise ValueError.
Proof.
  assert (forall t, In t ([t_empty] ++ []) -> rows t = []) as H
    by (intros t [<-|[]]; reflexivity).
  split; [exact H|].
  exact (no_counts_raises [t_empty] [] [region0] args_store ∅ H).
Defined.

(** ** Tracks and column labels *)

Lemma forallb_mem_false (names labels : list string) :
  forallb (fun name => mem name labels) names = false <->
  exists name, In name names /\ ~ In name labels.
Proof.
  induction names as [|n names IH]; simpl.
  - split; [discriminate | intros [x [[] _]]].
  - rewrite andb_false_iff, IH. split.
    + intros [H|[x [H1 H2]]]; [|eauto].
      exists n. split; [auto|]. intros Hin. apply mem_In in Hin. congruence.
    + intros [x [[<-|H1] H2]]; [|eauto].
      left. destruct (mem n labels) eqn:E; [|reflexivity].
      apply mem_In in E. contradiction.
Qed.

Lemma sum_track_Raise (matrix : DataFrame) (names : list string) (name : string) :
  In name names -> ~ In name (columns matrix) ->
  sum_track matrix names = Raise KeyError.
Proof.
  intros H1 H2. unfold sum_track, getitems.
  assert (forallb (fun n => mem n (columns matrix)) names = false) as ->
    by (apply forallb_mem_false; eauto).
  reflexivity.
Qed.

(** X11: a file name that is no column of the matrix.  [bedgraph] raises
    KeyError when a treatment or a control file is no column, and the track
    of a single file raises KeyError when its file is no column; in both
    cases no track is handed back. *)
Theorem missing_column_raises (matrix : DataFrame) (args : Args.t)
    (outfolder name : string) (fs : files) :
  ~ In name (columns matrix) ->
  (Args.bedgraph args = Some outfolder ->
   In name (Args.treatment args ++ Args.control args) ->
   bedgraph matrix args fs = Raise KeyError) /\
  _individual_bedgraphs matrix name outfolder fs = Raise KeyError.
Proof.
  intros Hno. split.
  - intros Hout Hin. unfold bedgraph. rewrite Hout. cbn [path_of mbind result_bind].
    destruct (forallb (fun n => mem n (columns matrix)) (Args.treatment args)) eqn:E.
    + rewrite (sum_track_Ok matrix (Args.treatment args))
        by (apply forallb_mem; exact E).
      cbn [mbind result_bind].
      apply in_app_or in Hin as [Hin|Hin].
      * exfalso. apply Hno. apply (proj1 (forallb_mem _ _) E). exact Hin.
      * rewrite (sum_track_Raise _ _ _ Hin Hno). reflexivity.
    + apply forallb_mem_false in E as [n [Hn1 Hn2]].
      rewrite (sum_track_Raise _ _ _ Hn1 Hn2). reflexivity.
  - unfold _individual_bedgraphs, track_lines, getitem.
    destruct (mem name (columns matrix)) eqn:E; [|reflexivity].
    apply mem_In in E. contradiction.
Qed.

Lemma missing_column_raises_witness :
  ~ In "u.bed" (columns m2) /\
  _individual_bedgraphs m2 "u.bed" "ibg" ∅ = Raise KeyError.
Proof.
  assert (~ In "u.bed" (columns m2)) as H
    by (simpl; intros [[=]|[[=]|[]]]).
  split; [exact H|].
  exact (proj2 (missing_column_raises m2 args_tracks "ibg" "u.bed" ∅ H)).
Defined.

(** ** The tracks of the single files *)

Lemma _individual_bedgraphs_Ok (matrix : DataFrame) (name outfolder : string)
    (fs : files) :
  In name (columns matrix) ->
  _individual_bedgraphs matrix name outfolder fs
  = Ok (<[track_path outfolder name := nonzero_lines matrix name]> fs).
Proof.
  intros H. unfold _individual_bedgraphs. rewrite (track_lines_Ok _ _ H). reflexivity.
Qed.

Lemma for_each_tracks (matrix : DataFrame) (outfolder : string) (names : list string) :
  (forall name, In name names -> In name (columns matrix)) ->
  forall fs,
    for_each (fun name => _individual_bedgraphs matrix name outfolder) names fs
    = Ok (fold_left (fun fs name =>
                       <[track_path outfolder name := nonzero_lines matrix name]> fs)
                    names fs).
Proof.
  induction names as [|n names IH]; intros H fs; [reflexivity|].
  simpl. rewrite _individual_bedgraphs_Ok by (apply H; left; reflexivity).
  simpl. apply IH. intros name Hn. apply H. right. exact Hn.
Qed.

Lemma fold_tracks_other (matrix : DataFrame) (outfolder : string)
    (names : list string) (p : string) :
  (forall name, In name names -> track_path outfolder name <> p) ->
  forall fs : files,
    fold_left (fun fs name =>
                 <[track_path outfolder name := nonzero_lines matrix name]> fs)
              names fs !! p = fs !! p.
Proof.
  induction names as [|n names IH]; intros H fs; [reflexivity|].
  simpl. rewrite IH by (intros name Hn; apply H; right; exact Hn).
  apply lookup_insert_ne. apply H. left. reflexivity.
Qed.

(** X12: the tracks of the single files.  When every treatment and control
    file is a column of the matrix, a track is written for each of them, the
    treatment files first; files at other paths are left as they were.  The
    track at a path is that of the last file with this path: a file whose
    path no later file has is found with its own lines. *)
Theorem individual_bedgraphs_files (matrix : DataFrame) (args : Args.t)
    (outfolder : string) (fs : files) :
  Args.individual_bedgraph args = Some outfolder ->
  (forall name, In name (Args.treatment args ++ Args.control args) ->
                In name (columns matrix)) ->
  exists fs',
    individual_bedgraphs matrix args fs = Ok fs' /\
    (forall p, (forall name, In name (Args.treatment args ++ Args.control args) ->
                             track_path outfolder name <> p) ->
               fs' !! p = fs !! p) /\
    (forall l1 name l2,
       (Args.treatment args ++ Args.control args)%list = (l1 ++ name :: l2)%list ->
       (forall n, In n l2 -> track_path outfolder n <> track_path outfolder name) ->
       fs' !! track_path outfolder name = Some (nonzero_lines matrix name)).
Proof.
  intros Hout H. unfold individual_bedgraphs. rewrite Hout.
  cbn [path_of mbind result_bind].
  rewrite for_each_tracks by (intros name Hn; apply H, in_or_app; auto).
  cbn [mbind result_bind].
  rewrite for_each_tracks by (intros name Hn; apply H, in_or_app; auto).
  rewrite <- fold_left_app. eexists. split; [reflexivity|]. split.
  - intros p Hp. apply fold_tracks_other. exact Hp.
  - intros l1 name l2 -> Hl2. rewrite fold_left_app. simpl.
    rewrite fold_tracks_other by exact Hl2. apply lookup_insert_eq.
Qed.

Lemma individual_bedgraphs_files_witness :
  Args.individual_bedgraph args_tracks = Some "ibg" /\
  (forall name, In name (Args.treatment args_tracks ++ Args.control args_tracks) ->
                In name (columns m2)) /\
  exists fs',
    individual_bedgraphs m2 args_tracks ∅ = Ok fs' /\
    fs' !! track_path "ibg" "t.bed" = Some (nonzero_lines m2 "t.bed").
Proof.
  assert (forall name, In name (Args.treatment args_tracks ++ Args.control args_tracks) ->
                       In name (columns m2)) as H
    by (simpl; intuition).
  split; [reflexivity|]. split; [exact H|].
  destruct (individual_bedgraphs_files m2 args_tracks "ibg" ∅ eq_refl H)
    as [fs' [Hfs [_ Hlast]]].
  exists fs'. split; [exact Hfs|].
  apply (Hlast [] "t.bed" ["c.bed"] eq_refl).
  intros n [<-|[]]. discriminate.
Defined.

(** X13: the name of a track is taken from the base name of the file
    alone.  Two files of the same name in different directories have the
    same track path, and with one of them as the treatment and the other as
    the control file a single track is written, that of the control file. *)
Theorem same_base_name_one_track (matrix : DataFrame) (args : Args.t)
    (outfolder dir1 dir2 file : string) (fs : files) :
  free "/" file = true ->
  Args.individual_bedgraph args = Some outfolder ->
  Args.treatment args = [dir1 +:+ String "/" file] ->
  Args.control args = [dir2 +:+ String "/" file] ->
  In (dir1 +:+ String "/" file) (columns matrix) ->
  In (dir2 +:+ String "/" file) (columns matrix) ->
  track_path outfolder (dir1 +:+ String "/" file) = track_path outfolder file /\
  track_path outfolder (dir2 +:+ String "/" file) = track_path outfolder file /\
  individual_bedgraphs matrix args fs
  = Ok (<[track_path outfolder file
          := nonzero_lines matrix (dir2 +:+ String "/" file)]> fs).
Proof.
  intros Hfree Hout Ht Hc H1 H2.
  assert (forall dir, track_path outfolder (dir +:+ String "/" file)
                      = track_path outfolder file) as Hp.
  { intros dir. unfold track_path, track_base.
    rewrite (basename_app _ _ Hfree), (basename_free _ Hfree). reflexivity. }
  split; [apply Hp|]. split; [apply Hp|].
  unfold individual_bedgraphs. rewrite Hout, Ht, Hc. cbn [path_of mbind result_bind].
  simpl. rewrite (_individual_bedgraphs_Ok _ _ _ _ H1). cbn [mbind result_bind].
  rewrite (_individual_bedgraphs_Ok _ _ _ _ H2). cbn [mbind result_bind].
  rewrite !Hp, insert_insert_eq. reflexivity.
Qed.

Lemma same_base_name_one_track_witness :
  free "/" "s.bed" = true /\
  Args.treatment args_dirs = ["a" +:+ String "/" "s.bed"] /\
  Args.control args_dirs = ["b" +:+ String "/" "s.bed"] /\
  individual_bedgraphs m_dirs args_dirs ∅
  = Ok (<[track_path "ibg" "s.bed" := nonzero_lines m_dirs ("b" +:+ String "/" "s.bed")]> ∅).
Proof.
  split; [reflexivity|]. split; [reflexivity|]. split; [reflexivity|].
  apply (same_base_name_one_track m_dirs args_dirs "ibg" "a" "b" "s.bed" ∅);
    try reflexivity; simpl; auto.
Defined.

(** ** More on the island index *)

(** X14: with a window size of 0 [enriched_bins] never gives an index: it
    raises ValueError as soon as a row is below the cutoff, on the first
    [range], and KeyError when no row is. *)
Theorem zero_window_raises (df : list Region) (args : Args.t) :
  Args.window_size args = 0 ->
  enriched_bins df args
  = match List.filter (below_cutoff args) df with
    | [] => Raise KeyError
    | _ :: _ => Raise ValueError
    end.
Proof.
  intros Hw. unfold enriched_bins. rewrite Hw.
  destruct (List.filter (below_cutoff args) df); reflexivity.
Qed.

Lemma zero_window_raises_witness :
  Args.window_size args_zero = 0 /\
  enriched_bins [region0] args_zero = Raise ValueError.
Proof.
  split; [reflexivity|]. exact (zero_window_raises [region0] args_zero eq_refl).
Defined.

(** X15: the bins of the index against the bounds of their region.  For a
    positive window size every bin of the index is at or above the Start of
    a row below the cutoff and at most one above its End; and for a row that
    spans whole windows, End = Start + n * window_size - 1, the index has
    the bin End + 1, which starts the window after the region. *)
Theorem bins_within_region (df : list Region) (args : Args.t) (row : Region) (n : nat) :
  0 < Args.window_size args ->
  In row df ->
  below_cutoff args row = true ->
  End row = Start row + Z.of_nat n * Args.window_size args - 1 ->
  exists islands,
    enriched_bins df args = Ok islands /\
    In (Chromosome row, End row + 1) (index islands) /\
    forall k, In k (index islands) ->
      exists row', In row' df /\ below_cutoff args row' = true /\
                   Chromosome row' = fst k /\
                   Start row' <= snd k <= End row' + 1.
Proof.
  intros Hw Hrow Hb HE.
  assert (Args.window_size args <> 0) as Hne by lia.
  assert (In (Chromosome row, End row + 1)
            (island_pairs (Args.window_size args) (List.filter (below_cutoff args) df)))
    as Hin.
  { apply island_pairs_In; [exact Hw|]. exists row. split; [apply filter_In; auto|].
    split; [reflexivity|]. exists n. simpl. lia. }
  rewrite enriched_bins_eq by exact Hne.
  destruct (island_pairs _ _) as [|k0 pairs] eqn:E; [destruct Hin|].
  eexists. split; [reflexivity|].
  assert (index {| columns := ["Island"];
                   rows := map (fun k => (k, island_cells)) (k0 :: pairs) |}
          = k0 :: pairs) as ->.
  { unfold index. cbn [rows]. rewrite map_map. cbn [fst]. apply map_id. }
  split; [exact Hin|]. intros k Hk. rewrite <- E in Hk.
  apply island_pairs_In in Hk as [row' [Hr [Hc [i [Hi Hlt]]]]]; [|exact Hw].
  apply filter_In in Hr as [Hr Hb']. exists row'. repeat split; auto; nia.
Qed.

Lemma bins_within_region_witness :
  0 < Args.window_size args0 /\
  End region_whole = Start region_whole + Z.of_nat 2 * Args.window_size args0 - 1 /\
  exists islands,
    enriched_bins [region_whole] args0 = Ok islands /\
    In ("chr1", 300) (index islands).
Proof.
  split; [reflexivity|]. split; [reflexivity|].
  destruct (bins_within_region [region_whole] args0 region_whole 2 eq_refl
              (or_introl eq_refl) eq_refl eq_refl) as [islands [H [Hin _]]].
  exists islands. split; [exact H | exact Hin].
Defined.

(** ** The order of the matrixes *)

Lemma mapM_Forall2 {A B} (f : A -> result B) (l : list A) (l' : list B) :
  mapM f l = Ok l' -> Forall2 (fun x y => f x = Ok y) l l'.
Proof.
  revert l'. induction l as [|x l IH]; simpl; intros l' H.
  - injection H as <-. constructor.
  - inv_bind H. inv_bind H. injection H as <-. constructor; auto.
Qed.

(** X16: the matrixes come back one for each chromosome of the partitions,
    in the natural order of the chromosomes, and for tables of one
    chromosome each every row of a matrix is on the chromosome of that
    matrix: the stacked matrix is grouped by chromosome, in that order. *)
Theorem matrixes_by_chromosome (chip input : list DataFrame) (df : list Region)
    (args : Args.t) (dfms : list DataFrame) :
  (forall t, In t (chip ++ input) -> single_chromosome t) ->
  create_matrixes chip input df args = Ok dfms ->
  Forall2 (fun chromosome dfm => forall k, In k (index dfm) -> fst k = chromosome)
    (all_chromosomes (put_dfs_in_chromosome_dict chip)
       (put_dfs_in_chromosome_dict input))
    dfms.
Proof.
  intros Hs H. unfold create_matrixes in H. inv_bind H.
  apply mapM_Forall2 in H. eapply Forall2_impl; [exact H|].
  intros ch dfm Hm k Hk. simpl in Hm.
  apply (_create_matrixes_keys _ _ _ _ _ k Hm) in Hk.
  destruct Hk as [Hk|Hk]; apply get_chromosome_df_keys in Hk.
  - apply Hk.
  - intros t Ht. apply Hs, in_or_app. auto.
  - apply Hk.
  - intros t Ht. apply Hs, in_or_app. auto.
Qed.

Lemma matrixes_by_chromosome_witness :
  (forall t, In t ([t1] ++ [c2]) -> single_chromosome t) /\
  exists dfms,
    create_matrixes [t1] [c2] [region0] args0 = Ok dfms /\
    all_chromosomes (put_dfs_in_chromosome_dict [t1]) (put_dfs_in_chromosome_dict [c2])
    = ["chr1"; "chr2"] /\
    Forall2 (fun chromosome dfm => forall k, In k (index dfm) -> fst k = chromosome)
      ["chr1"; "chr2"] dfms.
Proof.
  assert (forall t, In t ([t1] ++ [c2]) -> single_chromosome t) as Hs.
  { intros t [<-|[<-|[]]] k k' Hk Hk'; simpl in Hk, Hk';
      intuition (subst; reflexivity). }
  split; [exact Hs|].
  destruct (create_matrixes [t1] [c2] [region0] args0) as [dfms|e] eqn:E;
    [|vm_compute in E; discriminate].
  exists dfms. split; [reflexivity|].
  assert (all_chromosomes (put_dfs_in_chromosome_dict [t1])
            (put_dfs_in_chromosome_dict [c2]) = ["chr1"; "chr2"]) as Ha
    by (vm_compute; reflexivity).
  split; [exact Ha|]. rewrite <- Ha.
  exact (matrixes_by_chromosome [t1] [c2] [region0] args0 dfms Hs E).
Defined.
